(** * A shallow embedding of [assembler.py]

    The assembler reads a text file line by line, encodes every instruction
    line into one machine word and writes the words as a Logisim
    [v2.0 raw] hex image.

    Modelling conventions.
    - Python [int] is [Z]; [<<], [|] and [&] are [Z.shiftl], [Z.lor] and
      [Z.land] (both languages use the infinite two's-complement reading of
      negative numbers).
    - Python [str] is [string].  The model covers ASCII text: white space,
      decimal digits and letter case are the ASCII ones, which is what
      [str.strip], [str.split], [str.upper] and [int] see on ASCII input.
    - A raised exception is a value of [exn]; code that can raise returns
      [result].  Every [ValueError] of the program carries the kind of its
      message.
    - The built-in [int] is modelled as CPython 3.11 reads ASCII text,
      with its default limit of 4300 digits on a decimal literal.
    - [assemble_file] is given the lines of the input file, and is the run
      in which both files open; [assemble_file_at] is the run in any
      environment, where either [open] may raise.  Errors of reading,
      decoding and writing once a file is open are outside the model. *)

From Stdlib Require Import ZArith List String Ascii Bool Lia.
Import ListNotations.

Local Open Scope string_scope.
Local Open Scope Z_scope.

(** ** Exceptions *)

(** The message of a [ValueError]: the three f-strings of the program, the
    final "Unhandled instruction format" and the message of the built-in
    [int] on a malformed literal. *)
Inductive message : Type :=
| InvalidRegister (r : string)        (* "Invalid register: {r}" *)
| RegisterOutOfRange (r : string)     (* "Register out of range: {r}" *)
| UnknownInstruction (ins : string)   (* "Unknown instruction: {ins}" *)
| UnhandledFormat (ins : string)      (* "Unhandled instruction format: {ins}" *)
| InvalidLiteral (s : string)         (* "invalid literal for int() with base 10: ..." *)
| DigitLimit (digits : Z).            (* "Exceeds the limit (4300 digits) for integer
                                         string conversion: value has {digits} digits..." *)

Inductive exn : Type :=
| ValueError (m : message)
| IndexError                          (* "list index out of range" *)
| OSError.                            (* raised by [open]: FileNotFoundError,
                                         PermissionError and the like *)

Inductive result (A : Type) : Type :=
| Ok (a : A)
| Raise (e : exn).

Arguments Ok {A} a.
Arguments Raise {A} e.

Definition bind {A B : Type} (m : result A) (k : A -> result B) : result B :=
  match m with
  | Ok a => k a
  | Raise e => Raise e
  end.

Notation "x <- m ;; k" := (bind m (fun x => k))
  (at level 61, m at next level, right associativity).

(** ** Python string primitives used by the program *)

Module Py.

(** [str.isspace] on an ASCII character: TAB..CR, FS..US and the space. *)
Definition isspace (c : ascii) : bool :=
  let n := nat_of_ascii c in
  ((9 <=? n) && (n <=? 13) || (28 <=? n) && (n <=? 32))%nat.

Definition isdigit (c : ascii) : bool :=
  let n := nat_of_ascii c in
  ((48 <=? n) && (n <=? 57))%nat.

Definition digit_value (c : ascii) : Z := Z.of_nat (nat_of_ascii c) - 48.

Fixpoint lstrip (s : string) : string :=
  match s with
  | EmptyString => EmptyString
  | String c r => if isspace c then lstrip r else s
  end.

Fixpoint rstrip (s : string) : string :=
  match s with
  | EmptyString => EmptyString
  | String c r =>
      match rstrip r with
      | EmptyString => if isspace c then EmptyString else String c EmptyString
      | r' => String c r'
      end
  end.

(** [s.strip()] *)
Definition strip (s : string) : string := rstrip (lstrip s).

(** [s.split("//")[0]]: the text before the first ["//"], all of [s] when
    there is none. *)
Fixpoint split_slashes_0 (s : string) : string :=
  match s with
  | EmptyString => EmptyString
  | String c r =>
      match r with
      | String c' _ =>
          if (Ascii.eqb c "/" && Ascii.eqb c' "/")%bool then EmptyString
          else String c (split_slashes_0 r)
      | EmptyString => String c EmptyString
      end
  end.

(** [s.replace(",", " ")] *)
Fixpoint replace_comma (s : string) : string :=
  match s with
  | EmptyString => EmptyString
  | String c r => String (if Ascii.eqb c "," then " "%char else c) (replace_comma r)
  end.

(** [s.split()]: the maximal runs of non-space characters, in order.
    [cur] is the run being read. *)
Fixpoint split_from (s cur : string) : list string :=
  match s with
  | EmptyString => if String.eqb cur "" then [] else [cur]
  | String c r =>
      if isspace c
      then (if String.eqb cur "" then split_from r "" else cur :: split_from r "")
      else split_from r (cur ++ String c "")
  end.

Definition split (s : string) : list string := split_from s "".

Definition upper_char (c : ascii) : ascii :=
  let n := nat_of_ascii c in
  if ((97 <=? n) && (n <=? 122))%nat then ascii_of_nat (n - 32) else c.

(** [s.upper()] *)
Fixpoint upper (s : string) : string :=
  match s with
  | EmptyString => EmptyString
  | String c r => String (upper_char c) (upper r)
  end.

(** [s.startswith("R")] *)
Definition startswith_R (s : string) : bool :=
  match s with
  | String c _ => Ascii.eqb c "R"
  | EmptyString => false
  end.

(** [s[1:]] *)
Definition slice_from_1 (s : string) : string :=
  match s with
  | String _ r => r
  | EmptyString => EmptyString
  end.

(** [parts[i]] on a list: [IndexError] past the end. *)
Definition index {A : Type} (parts : list A) (i : nat) : result A :=
  match nth_error parts i with
  | Some x => Ok x
  | None => Raise IndexError
  end.

(** [x in l] for a list of strings. *)
Definition mem (x : string) (l : list string) : bool :=
  existsb (String.eqb x) l.

(** White space for [int] on ASCII text: TAB..CR and the space.  The
    characters FS..US, which [str.strip] removes, are not skipped. *)
Definition int_isspace (c : ascii) : bool :=
  let n := nat_of_ascii c in
  ((9 <=? n) && (n <=? 13) || (n =? 32))%nat.

Fixpoint int_skip (s : string) : string :=
  match s with
  | EmptyString => EmptyString
  | String c r => if int_isspace c then int_skip r else s
  end.

(** The digits of a decimal literal: decimal digits, with single
    underscores allowed between two digits.  The scan stops at the first
    character that is neither, and gives the value read, the number of
    digits and the text left.  [sep] tells that the previous character was
    no digit (the start of the literal or an underscore), so that an
    underscore or the end of the digits here is refused. *)
Fixpoint int_scan (s : string) (acc digits : Z) (sep : bool)
  : option (Z * Z * string) :=
  match s with
  | EmptyString => if sep then None else Some (acc, digits, EmptyString)
  | String c r =>
      if isdigit c then int_scan r (10 * acc + digit_value c) (digits + 1) false
      else if Ascii.eqb c "_" then (if sep then None else int_scan r acc digits true)
      else if sep then None else Some (acc, digits, s)
  end.

(** [sys.int_info.default_max_str_digits] *)
Definition int_max_str_digits : Z := 4300.

(** [int(s)]: leading white space is skipped, then an optional sign, then
    the digits are scanned, then their number is checked against the
    limit, then only white space may follow. *)
Definition int (s : string) : result Z :=
  let body := int_skip s in
  let signed_literal :=
    match body with
    | String "-" r => (true, r)
    | String "+" r => (false, r)
    | _ => (false, body)
    end in
  match int_scan (snd signed_literal) 0 0 true with
  | None => Raise (ValueError (InvalidLiteral s))
  | Some (n, digits, rest) =>
      if int_max_str_digits <? digits
      then Raise (ValueError (DigitLimit digits))
      else if String.eqb (int_skip rest) ""
      then Ok (if fst signed_literal then - n else n)
      else Raise (ValueError (InvalidLiteral s))
  end.

End Py.

(** ** The opcode table *)

Definition OPCODES : list (string * Z) :=
  [ ("ADD",   0);  ("SUB",   1);  ("NAND",  2);  ("NOR",   3);
    ("SRL",   4);  ("SRA",   5);  ("ADDI",  6);  ("SUBI",  7);
    ("NANDI", 8);  ("NORI",  9);  ("LD",   10);  ("ST",   11);
    ("JUMP", 12);  ("JAL",  13);  ("LUI",  14);  ("CMOV", 15);
    ("PUSH", 16);  ("POP",  17) ].

(** [OPCODES[ins]], [None] when [ins not in OPCODES]. *)
Fixpoint lookup (ins : string) (table : list (string * Z)) : option Z :=
  match table with
  | [] => None
  | (k, v) :: rest => if String.eqb ins k then Some v else lookup ins rest
  end.

(** ** Operand decoding *)

Definition reg_number (r : string) : result Z :=
  if negb (Py.startswith_R r) then Raise (ValueError (InvalidRegister r))
  else
    num <- Py.int (Py.slice_from_1 r) ;;
    if negb ((0 <=? num) && (num <=? 15))
    then Raise (ValueError (RegisterOutOfRange r))
    else Ok num.

(** [bits] is the literal 5 or 13 at every call of the program; Python
    refuses a negative shift count, so the statements about [signed] are
    for [0 <= bits]. *)
Definition signed (val bits : Z) : Z :=
  let val := if val <? 0 then Z.shiftl 1 bits + val else val in
  Z.land val (Z.shiftl 1 bits - 1).

(** ** The bit packers *)

Definition encode_R (op rd rs1 rs2 : Z) : Z :=
  Z.lor (Z.lor (Z.lor (Z.shiftl op 13) (Z.shiftl rd 9)) (Z.shiftl rs1 5))
        (Z.shiftl rs2 1).

Definition encode_I (op rd rs1 imm5 : Z) : Z :=
  let imm5 := signed imm5 5 in
  Z.lor (Z.lor (Z.lor (Z.shiftl op 13) (Z.shiftl rd 9)) (Z.shiftl rs1 5)) imm5.

Definition encode_M (op reg addr : Z) : Z :=
  let addr := Z.land addr 511 in
  Z.lor (Z.lor (Z.shiftl op 13) (Z.shiftl reg 9)) addr.

Definition encode_J (op offset : Z) : Z :=
  let offset := signed offset 13 in
  Z.lor (Z.shiftl op 13) offset.

Definition encode_U (op rd imm9 : Z) : Z :=
  let imm9 := Z.land imm9 511 in
  Z.lor (Z.lor (Z.shiftl op 13) (Z.shiftl rd 9)) imm9.

Definition encode_CMOV (op r1 r2 r3 : Z) : Z :=
  Z.lor (Z.lor (Z.lor (Z.shiftl op 13) (Z.shiftl r1 9)) (Z.shiftl r2 5))
        (Z.shiftl r3 1).

Definition encode_STACK (op reg : Z) : Z :=
  Z.lor (Z.shiftl op 13) (Z.shiftl reg 9).

(** ** One source line *)

Definition R_type : list string := ["ADD"; "SUB"; "NAND"; "NOR"; "SRL"; "SRA"].
Definition I_type : list string := ["ADDI"; "SUBI"; "NANDI"; "NORI"].
Definition J_type : list string := ["JUMP"; "JAL"].
Definition S_type : list string := ["PUSH"; "POP"].

(** The body of [parse_line] from [ins = parts[0].upper()] on. *)
Definition parse_parts (parts : list string) : result Z :=
  ins0 <- Py.index parts 0 ;;
  let ins := Py.upper ins0 in
  match lookup ins OPCODES with
  | None => Raise (ValueError (UnknownInstruction ins))
  | Some op =>
      if Py.mem ins R_type then
        rd  <- (p <- Py.index parts 1 ;; reg_number p) ;;
        rs1 <- (p <- Py.index parts 2 ;; reg_number p) ;;
        rs2 <- (p <- Py.index parts 3 ;; reg_number p) ;;
        Ok (encode_R op rd rs1 rs2)
      else if Py.mem ins I_type then
        rd   <- (p <- Py.index parts 1 ;; reg_number p) ;;
        rs1  <- (p <- Py.index parts 2 ;; reg_number p) ;;
        imm5 <- (p <- Py.index parts 3 ;; Py.int p) ;;
        Ok (encode_I op rd rs1 imm5)
      else if String.eqb ins "LD" then
        rd   <- (p <- Py.index parts 1 ;; reg_number p) ;;
        addr <- (p <- Py.index parts 2 ;; Py.int p) ;;
        Ok (encode_M op rd addr)
      else if String.eqb ins "ST" then
        rs   <- (p <- Py.index parts 1 ;; reg_number p) ;;
        addr <- (p <- Py.index parts 2 ;; Py.int p) ;;
        Ok (encode_M op rs addr)
      else if Py.mem ins J_type then
        offset <- (p <- Py.index parts 1 ;; Py.int p) ;;
        Ok (encode_J op offset)
      else if String.eqb ins "LUI" then
        rd   <- (p <- Py.index parts 1 ;; reg_number p) ;;
        imm9 <- (p <- Py.index parts 2 ;; Py.int p) ;;
        Ok (encode_U op rd imm9)
      else if String.eqb ins "CMOV" then
        r1 <- (p <- Py.index parts 1 ;; reg_number p) ;;
        r2 <- (p <- Py.index parts 2 ;; reg_number p) ;;
        r3 <- (p <- Py.index parts 3 ;; reg_number p) ;;
        Ok (encode_CMOV op r1 r2 r3)
      else if Py.mem ins S_type then
        reg <- (p <- Py.index parts 1 ;; reg_number p) ;;
        Ok (encode_STACK op reg)
      else Raise (ValueError (UnhandledFormat ins))
  end.

(** The line without its comment and surrounding white space. *)
Definition code_text (line : string) : string :=
  Py.strip (Py.split_slashes_0 line).

(** [parts] of a line that is not blank. *)
Definition tokens (line : string) : list string :=
  Py.split (Py.replace_comma (code_text line)).

(** [None] is Python's [None]: the line holds no instruction. *)
Definition parse_line (line : string) : result (option Z) :=
  let line := code_text line in
  if String.eqb line "" then Ok None
  else
    let parts := Py.split (Py.replace_comma line) in
    w <- parse_parts parts ;;
    Ok (Some w).

(** ** The output image *)

Definition nl : string := String (ascii_of_nat 10) "".

Definition hex_char (d : Z) : ascii :=
  match d with
  | 0 => "0" | 1 => "1" | 2 => "2" | 3 => "3" | 4 => "4" | 5 => "5"
  | 6 => "6" | 7 => "7" | 8 => "8" | 9 => "9" | 10 => "a" | 11 => "b"
  | 12 => "c" | 13 => "d" | 14 => "e" | _ => "f"
  end%char.

(** The hexadecimal digits of [n >= 0], most significant first; [fuel]
    bounds the number of digits. *)
Fixpoint hex_from (fuel : nat) (n : Z) : string :=
  match fuel with
  | O => ""
  | S f =>
      (if n <? 16 then "" else hex_from f (n / 16))
        ++ String (hex_char (n mod 16)) ""
  end.

Definition hex (n : Z) : string := hex_from (S (Z.to_nat (Z.log2 n))) n.

Fixpoint zeros (k : nat) : string :=
  match k with
  | O => ""
  | S k' => String "0" (zeros k')
  end.

Definition zfill (width : nat) (s : string) : string :=
  zeros (width - String.length s) ++ s.

(** [f"{code:05x}"]: the sign counts in the width of 5. *)
Definition format_05x (code : Z) : string :=
  if code <? 0 then "-" ++ zfill 4 (hex (- code)) else zfill 5 (hex code).

(** [range(0, n, 8)] *)
Definition range_by_8 (n : nat) : list nat :=
  map (fun k => 8 * k)%nat (seq 0 ((n + 7) / 8)).

(** [l[i:i+8]] *)
Definition slice_8 {A : Type} (l : list A) (i : nat) : list A :=
  firstn 8 (skipn i l).

(** The text written to the output file. *)
Definition image (machine_codes : list Z) : string :=
  let hex_words := map format_05x machine_codes in
  ("v2.0 raw" ++ nl)
    ++ String.concat ""
         (map (fun i => String.concat " " (slice_8 hex_words i) ++ nl)
              (range_by_8 (List.length hex_words))).

(** ** The whole file *)

(** What a run leaves behind: the lines printed, the content of the output
    file ([None]: the file was never opened for writing) and the exception
    that ended the run, if any. *)
Record run : Type := {
  stdout : list string;
  written : option string;
  raised : option exn
}.

(** The [for line in f] loop; [machine_codes] is the list built so far.
    The handler prints the offending line and raises the exception again. *)
Fixpoint read_lines (lines : list string) (machine_codes : list Z)
  : list string * result (list Z) :=
  match lines with
  | [] => ([], Ok machine_codes)
  | line :: rest =>
      match parse_line line with
      | Ok (Some encoded) => read_lines rest (machine_codes ++ [encoded])
      | Ok None => read_lines rest machine_codes
      | Raise e => (["Error in line: " ++ Py.strip line], Raise e)
      end
  end.

(** [input] is the sequence of lines of the input file; both files
    open. *)
Definition assemble_file (input : list string) (output_file : string) : run :=
  match read_lines input [] with
  | (printed, Raise e) =>
      {| stdout := printed; written := None; raised := Some e |}
  | (printed, Ok machine_codes) =>
      {| stdout := printed ++
           ["Assembly complete. Output written to " ++ output_file];
         written := Some (image machine_codes);
         raised := None |}
  end.

(** The run in any environment.  [input] is what [open(input_file, "r")]
    gives, the lines of the file or the exception it raises; [refused] is
    the exception of [open(output_file, "w")], if it raises.  The input is
    opened before the loop and the output only after it, so the output
    file is not touched by a run that a line ends. *)
Definition assemble_file_at
  (input : result (list string)) (refused : option exn) (output_file : string)
  : run :=
  match input with
  | Raise e => {| stdout := []; written := None; raised := Some e |}
  | Ok lines =>
      match read_lines lines [] with
      | (printed, Raise e) =>
          {| stdout := printed; written := None; raised := Some e |}
      | (printed, Ok machine_codes) =>
          match refused with
          | Some e => {| stdout := printed; written := None; raised := Some e |}
          | None =>
              {| stdout := printed ++
                   ["Assembly complete. Output written to " ++ output_file];
                 written := Some (image machine_codes);
                 raised := None |}
          end
      end
  end.

(** ** Reading a word back *)

(** [(w >> lo) & ((1 << width) - 1)]: the [width] bits of [w] from bit
    [lo] up. *)
Definition field (w lo width : Z) : Z := Z.land (Z.shiftr w lo) (Z.ones width).

(** * Vocabulary of the statements *)

(** What makes a packed value a machine word of opcode [op]. *)
Definition word_of_opcode (op w : Z) : Prop :=
  0 <= w < 2 ^ 18 /\ field w 13 5 = op.

(** The two kinds of operand token in the dispatch of [parse_line]. *)
Inductive operand : Type :=
| Reg   (* decoded by [reg_number] *)
| Imm.  (* decoded by [int] *)

(** The operands [parse_line] reads after the mnemonic [ins], in the order
    in which it reads them. *)
Definition operands (ins : string) : list operand :=
  if Py.mem ins R_type then [Reg; Reg; Reg]
  else if Py.mem ins I_type then [Reg; Reg; Imm]
  else if String.eqb ins "LD" then [Reg; Imm]
  else if String.eqb ins "ST" then [Reg; Imm]
  else if Py.mem ins J_type then [Imm]
  else if String.eqb ins "LUI" then [Reg; Imm]
  else if String.eqb ins "CMOV" then [Reg; Reg; Reg]
  else if Py.mem ins S_type then [Reg]
  else [].

(** How [parse_line] decodes a token of each kind. *)
Definition decode (k : operand) (token : string) : result Z :=
  match k with
  | Reg => reg_number token
  | Imm => Py.int token
  end.

(** The exception of the first operand token, among those present, that
    does not decode. *)
Fixpoint first_error (ks : list operand) (tokens : list string) : option exn :=
  match ks, tokens with
  | k :: ks', t :: tokens' =>
      match decode k t with
      | Raise e => Some e
      | Ok _ => first_error ks' tokens'
      end
  | _, _ => None
  end.

(** The line is empty once the text from the first [//] on is removed and
    the rest is trimmed. *)
Definition blank (line : string) : bool := String.eqb (code_text line) "".

(** The line encodes: it is blank or holds a well-formed instruction. *)
Definition encodes (line : string) : Prop := exists r, parse_line line = Ok r.

(** The lines that are not blank, in order. *)
Definition instruction_lines (lines : list string) : list string :=
  filter (fun line => negb (blank line)) lines.

(** [w] is the word of [line]. *)
Definition word_of_line (line : string) (w : Z) : Prop :=
  parse_line line = Ok (Some w).

(** A decimal digit or one of [a]..[f]. *)
Definition is_lower_hex (c : ascii) : bool :=
  let n := nat_of_ascii c in
  ((48 <=? n) && (n <=? 57) || (97 <=? n) && (n <=? 102))%nat.

Fixpoint all_chars (p : ascii -> bool) (s : string) : bool :=
  match s with
  | EmptyString => true
  | String c r => p c && all_chars p r
  end.

(** The value of a lowercase hexadecimal digit. *)
Definition hex_digit_value (c : ascii) : Z :=
  let n := Z.of_nat (nat_of_ascii c) in
  if n <=? 57 then n - 48 else n - 87.

(** The number a string of hexadecimal digits denotes, [acc] being the
    value of the digits already read. *)
Fixpoint read_hex_from (s : string) (acc : Z) : Z :=
  match s with
  | EmptyString => acc
  | String c r => read_hex_from r (16 * acc + hex_digit_value c)
  end.

Definition read_hex (s : string) : Z := read_hex_from s 0.

(** The [k] low hexadecimal digits of [n]. *)
Fixpoint fixed_hex (k : nat) (n : Z) : string :=
  match k with
  | O => ""
  | S k' => fixed_hex k' (n / 16) ++ String (hex_char (n mod 16)) ""
  end.

(** [w] is printed as five lowercase hexadecimal digits that denote it. *)
Definition five_hex_digits (w : Z) : Prop :=
  String.length (format_05x w) = 5%nat /\
  all_chars is_lower_hex (format_05x w) = true /\
  read_hex (format_05x w) = w.

(** Every row holds eight items, but the last one, which holds one to
    eight. *)
Fixpoint rows_of_8 {A : Type} (rows : list (list A)) : Prop :=
  match rows with
  | [] => True
  | row :: rest =>
      match rest with
      | [] => (1 <= List.length row <= 8)%nat
      | _ :: _ => List.length row = 8%nat /\ rows_of_8 rest
      end
  end.

(** The text of one row. *)
Definition row_text (row : list Z) : string :=
  String.concat " " (map format_05x row) ++ nl.

(** The first [k] multiples of 8. *)
Definition starts (k : nat) : list nat := map (fun j => 8 * j)%nat (seq 0 k).




(** The line raises. *)
Definition fails (line : string) : Prop := exists e, parse_line line = Raise e.

(** What is left of a run that a line ended with the exception [e]: the
    line printed, no output file, the exception. *)
Definition aborted (line : string) (e : exn) : run :=
  {| stdout := ["Error in line: " ++ Py.strip line];
     written := None;
     raised := Some e |}.

(** The value a [bits]-bit two's-complement pattern stands for. *)
Definition sign_extend (pattern bits : Z) : Z :=
  if pattern <? 2 ^ (bits - 1) then pattern else pattern - 2 ^ bits.

(** The exception is the "Unhandled instruction format" error that ends
    the dispatch of [parse_line]. *)
Definition unhandled (e : exn) : bool :=
  match e with
  | ValueError (UnhandledFormat _) => true
  | _ => false
  end.

(** A comma or a white-space character: what separates tokens. *)
Definition comma_or_space (c : ascii) : bool :=
  Ascii.eqb c "," || Py.isspace c.

(** * Properties *)

(** ** Exceptions and [bind] *)

Lemma bind_Ok {A B : Type} (m : result A) (k : A -> result B) (b : B) :
  bind m k = Ok b -> exists a, m = Ok a /\ k a = Ok b.
Proof.
  destruct m as [a|e]; simpl; intros H; [eauto | discriminate].
Qed.

(** ** Bit arithmetic *)

Lemma lor_bound (n a b : Z) :
  0 <= n -> 0 <= a < 2 ^ n -> 0 <= b < 2 ^ n -> 0 <= Z.lor a b < 2 ^ n.
Proof.
  intros Hn Ha Hb.
  assert (H0 : 0 <= Z.lor a b) by (apply Z.lor_nonneg; lia).
  split; [exact H0|].
  destruct (Z.eq_dec (Z.lor a b) 0) as [E|E].
  - rewrite E. apply Z.pow_pos_nonneg; lia.
  - apply Z.log2_lt_pow2; [lia|].
    rewrite Z.log2_lor by lia.
    destruct (Z.eq_dec a 0) as [Ea|Ea], (Z.eq_dec b 0) as [Eb|Eb]; subst.
    + now rewrite Z.lor_0_l in E.
    + rewrite Z.max_r by (apply Z.log2_nonneg). apply Z.log2_lt_pow2; lia.
    + rewrite Z.max_l by (apply Z.log2_nonneg). apply Z.log2_lt_pow2; lia.
    + apply Z.max_lub_lt; apply Z.log2_lt_pow2; lia.
Qed.

Lemma shiftl_bound (v k n : Z) :
  0 <= k -> 0 <= n -> 0 <= v < 2 ^ n -> 0 <= Z.shiftl v k < 2 ^ (n + k).
Proof.
  intros Hk Hn Hv. rewrite Z.shiftl_mul_pow2 by lia.
  rewrite Z.pow_add_r by lia.
  assert (0 < 2 ^ k) by (apply Z.pow_pos_nonneg; lia). nia.
Qed.

Lemma signed_mod (val bits : Z) : 0 <= bits -> signed val bits = val mod 2 ^ bits.
Proof.
  intros Hb. unfold signed.
  rewrite Z.shiftl_1_l, Z.sub_1_r, <- Z.ones_equiv, Z.land_ones by lia.
  destruct (val <? 0); [|reflexivity].
  rewrite <- (Z.mul_1_l (2 ^ bits)) at 1.
  rewrite Z.add_comm, Z.mod_add; [reflexivity|].
  apply Z.pow_nonzero; lia.
Qed.

Lemma signed_range (val bits : Z) : 0 <= bits -> 0 <= signed val bits < 2 ^ bits.
Proof.
  intros Hb. rewrite signed_mod by lia.
  apply Z.mod_pos_bound, Z.pow_pos_nonneg; lia.
Qed.

Lemma land_511_range (v : Z) : 0 <= Z.land v 511 < 2 ^ 9.
Proof.
  change 511 with (Z.ones 9). rewrite Z.land_ones by lia.
  apply Z.mod_pos_bound. reflexivity.
Qed.

(** A word is an opcode shifted by 13 over a 13-bit operand part. *)
Lemma opcode_over_low (op low : Z) :
  0 <= op < 32 -> 0 <= low < 2 ^ 13 ->
  0 <= Z.lor (Z.shiftl op 13) low < 2 ^ 18 /\
  field (Z.lor (Z.shiftl op 13) low) 13 5 = op.
Proof.
  intros Hop Hlow. split.
  - apply lor_bound; [lia | | lia].
    apply (shiftl_bound op 13 5); lia.
  - unfold field. rewrite Z.shiftr_lor, Z.shiftr_shiftl_l by lia.
    rewrite Z.sub_diag, Z.shiftl_0_r.
    rewrite (Z.shiftr_div_pow2 low) by lia.
    rewrite (Z.div_small low) by lia.
    rewrite Z.lor_0_r, Z.land_ones by lia.
    apply Z.mod_small. lia.
Qed.

Lemma reg3_low (a b c : Z) :
  0 <= a <= 15 -> 0 <= b <= 15 -> 0 <= c <= 15 ->
  0 <= Z.lor (Z.shiftl a 9) (Z.lor (Z.shiftl b 5) (Z.shiftl c 1)) < 2 ^ 13.
Proof.
  intros Ha Hb Hc.
  pose proof (shiftl_bound a 9 4). pose proof (shiftl_bound b 5 4).
  pose proof (shiftl_bound c 1 4).
  repeat (apply lor_bound; [lia| |]); simpl in *; lia.
Qed.

Lemma reg2_low (a b low : Z) :
  0 <= a <= 15 -> 0 <= b <= 15 -> 0 <= low < 2 ^ 5 ->
  0 <= Z.lor (Z.shiftl a 9) (Z.lor (Z.shiftl b 5) low) < 2 ^ 13.
Proof.
  intros Ha Hb Hc.
  pose proof (shiftl_bound a 9 4). pose proof (shiftl_bound b 5 4).
  repeat (apply lor_bound; [lia| |]); simpl in *; lia.
Qed.

Lemma reg1_low (a low : Z) :
  0 <= a <= 15 -> 0 <= low < 2 ^ 9 ->
  0 <= Z.lor (Z.shiftl a 9) low < 2 ^ 13.
Proof.
  intros Ha Hc.
  pose proof (shiftl_bound a 9 4).
  repeat (apply lor_bound; [lia| |]); simpl in *; lia.
Qed.

Section Packers.
Variables op a b c : Z.
Hypothesis Hop : 0 <= op < 32.
Hypothesis Ha : 0 <= a <= 15.
Hypothesis Hb : 0 <= b <= 15.
Hypothesis Hc : 0 <= c <= 15.
Variable imm : Z.

Lemma encode_R_word : word_of_opcode op (encode_R op a b c).
Proof.
  unfold encode_R. rewrite <- !Z.lor_assoc.
  apply opcode_over_low; [exact Hop | now apply reg3_low].
Qed.

Lemma encode_CMOV_word : word_of_opcode op (encode_CMOV op a b c).
Proof. exact encode_R_word. Qed.

Lemma encode_I_word : word_of_opcode op (encode_I op a b imm).
Proof.
  unfold encode_I. rewrite <- !Z.lor_assoc.
  apply opcode_over_low; [exact Hop|].
  apply reg2_low; [exact Ha | exact Hb | apply signed_range; lia].
Qed.

Lemma encode_M_word : word_of_opcode op (encode_M op a imm).
Proof.
  unfold encode_M. rewrite <- !Z.lor_assoc.
  apply opcode_over_low; [exact Hop|].
  apply reg1_low; [exact Ha | apply land_511_range].
Qed.

Lemma encode_U_word : word_of_opcode op (encode_U op a imm).
Proof. exact encode_M_word. Qed.

Lemma encode_J_word : word_of_opcode op (encode_J op imm).
Proof.
  unfold encode_J.
  apply opcode_over_low; [exact Hop | apply signed_range; lia].
Qed.

Lemma encode_STACK_word : word_of_opcode op (encode_STACK op a).
Proof.
  unfold encode_STACK.
  apply opcode_over_low; [exact Hop|].
  pose proof (shiftl_bound a 9 4). simpl in *; lia.
Qed.
End Packers.

(** ** Operand decoding *)

Lemma reg_number_range (r : string) (n : Z) : reg_number r = Ok n -> 0 <= n <= 15.
Proof.
  unfold reg_number. destruct (Py.startswith_R r); simpl; [|discriminate].
  destruct (Py.int _) as [num|e]; simpl; [|discriminate].
  destruct (0 <=? num) eqn:E1, (num <=? 15) eqn:E2; simpl; try discriminate.
  intros [= <-]. lia.
Qed.



(** ** The opcode table *)

Lemma lookup_In (ins : string) (table : list (string * Z)) (op : Z) :
  lookup ins table = Some op -> In (ins, op) table.
Proof.
  induction table as [|[k v] rest IH]; simpl; [discriminate|].
  destruct (String.eqb ins k) eqn:E.
  - apply String.eqb_eq in E. intros [= <-]. left. now subst.
  - intros H. right. now apply IH.
Qed.

Lemma OPCODES_range (ins : string) (op : Z) :
  lookup ins OPCODES = Some op -> 0 <= op < 32.
Proof.
  intros H. apply lookup_In in H. unfold OPCODES in H. simpl in H.
  repeat (destruct H as [H|H]; [injection H as _ <-; lia|]). contradiction.
Qed.

(** ** Lines *)

Lemma parse_line_blank (line : string) :
  blank line = true -> parse_line line = Ok None.
Proof. unfold blank, parse_line. intros ->. reflexivity. Qed.

Lemma parse_line_not_blank (line : string) :
  blank line = false ->
  parse_line line = (w <- parse_parts (tokens line) ;; Ok (Some w)).
Proof. unfold blank, parse_line, tokens. intros ->. reflexivity. Qed.

Lemma tokens_blank (line : string) : blank line = true -> tokens line = [].
Proof.
  unfold blank, tokens. intros H. apply String.eqb_eq in H. now rewrite H.
Qed.

Lemma parse_line_tokens (line m : string) (ops : list string) :
  tokens line = m :: ops ->
  parse_line line = (w <- parse_parts (m :: ops) ;; Ok (Some w)).
Proof.
  intros H. destruct (blank line) eqn:B.
  - apply tokens_blank in B. congruence.
  - rewrite parse_line_not_blank by exact B. now rewrite H.
Qed.

(** A line yields [None] exactly when it is blank. *)
Lemma parse_line_None (line : string) :
  parse_line line = Ok None <-> blank line = true.
Proof.
  split; [|apply parse_line_blank].
  destruct (blank line) eqn:B; [reflexivity|].
  rewrite parse_line_not_blank by exact B.
  destruct (parse_parts _); simpl; discriminate.
Qed.

(** [parse_parts] sees the mnemonic only through [upper]. *)
Lemma parse_parts_upper (m1 m2 : string) (ops : list string) :
  Py.upper m1 = Py.upper m2 -> parse_parts (m1 :: ops) = parse_parts (m2 :: ops).
Proof.
  unfold parse_parts. change (Py.index (?m :: ops) 0) with (Ok m).
  unfold bind at 1 3. cbv beta iota zeta. intros ->. reflexivity.
Qed.

Ltac split_binds :=
  repeat match goal with
         | H : bind _ _ = Ok _ |- _ =>
             apply bind_Ok in H; destruct H as (? & ? & H)
         end.

Ltac reg_bounds :=
  repeat match goal with
         | H : reg_number _ = Ok _ |- _ => apply reg_number_range in H
         end.

(** Every word [parse_parts] returns has 18 bits, the opcode of the
    mnemonic on top. *)
Lemma parse_parts_word (m : string) (ops : list string) (w : Z) :
  parse_parts (m :: ops) = Ok w ->
  exists op, lookup (Py.upper m) OPCODES = Some op /\ word_of_opcode op w.
Proof.
  unfold parse_parts. change (Py.index (m :: ops) 0) with (Ok m).
  unfold bind at 1. cbv beta iota zeta.
  destruct (lookup (Py.upper m) OPCODES) as [op|] eqn:L; [|discriminate].
  pose proof (OPCODES_range _ _ L) as Hop.
  intros H. exists op. split; [reflexivity|].
  repeat match type of H with
         | (if ?c then _ else _) = _ => destruct c
         end;
    try discriminate;
    split_binds; injection H as <-; reg_bounds;
    first [ now apply encode_R_word | now apply encode_I_word
          | now apply encode_M_word | now apply encode_J_word
          | now apply encode_U_word | now apply encode_CMOV_word
          | now apply encode_STACK_word ].
Qed.

Lemma parse_line_word (line : string) (w : Z) :
  parse_line line = Ok (Some w) ->
  exists m ops op,
    tokens line = m :: ops /\ lookup (Py.upper m) OPCODES = Some op /\
    word_of_opcode op w.
Proof.
  intros H. destruct (blank line) eqn:B.
  - rewrite parse_line_blank in H by exact B. discriminate.
  - rewrite parse_line_not_blank in H by exact B.
    apply bind_Ok in H. destruct H as (w' & Hw & H). injection H as <-.
    destruct (tokens line) as [|m ops]; [discriminate|].
    apply parse_parts_word in Hw. destruct Hw as (op & L & W).
    now exists m, ops, op.
Qed.

(** With fewer operand tokens than the format reads, [parse_parts] raises:
    the exception of the first token that does not decode, and
    [IndexError] when all the tokens present decode. *)
Lemma parse_parts_missing (m : string) (ops : list string) (op : Z) :
  lookup (Py.upper m) OPCODES = Some op ->
  (List.length ops < List.length (operands (Py.upper m)))%nat ->
  parse_parts (m :: ops) =
  Raise match first_error (operands (Py.upper m)) ops with
        | Some e => e
        | None => IndexError
        end.
Proof.
  intros L. unfold parse_parts. change (Py.index (m :: ops) 0) with (Ok m).
  unfold bind at 1. cbv beta iota zeta. rewrite L. unfold operands.
  repeat match goal with
         | |- context [if ?c then _ else _] => destruct c
         end;
    simpl List.length; intros Hlen;
    destruct ops as [|t1 [|t2 [|t3 ops]]]; simpl in Hlen; try lia;
    unfold Py.index; simpl; unfold decode;
    repeat match goal with
           | |- context [reg_number ?t] => destruct (reg_number t); simpl
           | |- context [Py.int ?t] => destruct (Py.int t); simpl
           end;
    reflexivity.
Qed.

(** ** The loop over the lines *)

Lemma read_lines_Ok (lines : list string) :
  forall (acc : list Z) (printed : list string) (ws : list Z),
  read_lines lines acc = (printed, Ok ws) ->
  printed = [] /\ Forall encodes lines /\
  exists new, ws = (acc ++ new)%list /\
              Forall2 word_of_line (instruction_lines lines) new.
Proof.
  induction lines as [|line rest IH]; simpl; intros acc printed ws H.
  - injection H as <- <-. repeat split; [constructor|].
    exists []. split; [now rewrite app_nil_r | constructor].
  - destruct (parse_line line) as [[w|]|e] eqn:P; [| |discriminate].
    + apply IH in H. destruct H as (-> & Hall & new & -> & F).
      repeat split; [constructor; [now exists (Some w) | exact Hall]|].
      exists (w :: new). rewrite <- app_assoc. split; [reflexivity|].
      assert (B : blank line = false).
      { destruct (blank line) eqn:B; [|reflexivity].
        rewrite parse_line_blank in P by exact B. discriminate. }
      unfold instruction_lines in *. simpl. rewrite B. simpl.
      constructor; assumption.
    + apply IH in H. destruct H as (-> & Hall & new & -> & F).
      repeat split; [constructor; [now exists None | exact Hall]|].
      exists new. split; [reflexivity|].
      apply parse_line_None in P.
      unfold instruction_lines in *. simpl. rewrite P. exact F.
Qed.

Lemma read_lines_encodes (lines : list string) :
  Forall encodes lines ->
  forall acc, exists ws, read_lines lines acc = ([], Ok ws).
Proof.
  induction 1 as [|line rest [r P] _ IH]; intros acc; simpl.
  - now exists acc.
  - rewrite P. destruct r as [w|]; apply IH.
Qed.

(** The loop stops at the first line that raises, whatever follows it. *)
Lemma read_lines_Raise (pre post : list string) (line : string) (e : exn) :
  Forall encodes pre -> parse_line line = Raise e ->
  forall acc,
    read_lines (pre ++ line :: post)%list acc =
    (["Error in line: " ++ Py.strip line], Raise e).
Proof.
  intros Hpre P. induction Hpre as [|l rest [r Pl] _ IH]; intros acc; simpl.
  - now rewrite P.
  - rewrite Pl. destruct r as [w|]; apply IH.
Qed.

(** A run that raises has a first line that raises. *)
Lemma read_lines_Raise_inv (lines : list string) :
  forall (acc : list Z) (printed : list string) (e : exn),
  read_lines lines acc = (printed, Raise e) ->
  exists pre line post,
    lines = (pre ++ line :: post)%list /\ Forall encodes pre /\
    parse_line line = Raise e.
Proof.
  induction lines as [|l rest IH]; simpl; intros acc printed e H;
    [discriminate|].
  destruct (parse_line l) as [r|e'] eqn:P.
  - assert (H' : exists acc', read_lines rest acc' = (printed, Raise e))
      by (destruct r; eauto).
    destruct H' as (acc' & H'). apply IH in H'.
    destruct H' as (pre & line & post & -> & Hpre & Pl).
    exists (l :: pre), line, post. repeat split; [|exact Pl].
    constructor; [now exists r | exact Hpre].
  - injection H as _ <-. exists [], l, rest. repeat split; [constructor|exact P].
Qed.

(** ** Hexadecimal rendering *)

Lemma append_assoc (a b c : string) : (a ++ b) ++ c = a ++ (b ++ c).
Proof. induction a as [|x a IH]; simpl; [reflexivity | now rewrite IH]. Qed.

Lemma length_append (a b : string) :
  String.length (a ++ b) = (String.length a + String.length b)%nat.
Proof. induction a as [|x a IH]; simpl; [reflexivity | now rewrite IH]. Qed.

Lemma all_chars_append (p : ascii -> bool) (a b : string) :
  all_chars p (a ++ b) = all_chars p a && all_chars p b.
Proof.
  induction a as [|x a IH]; simpl; [reflexivity|].
  now rewrite IH, andb_assoc.
Qed.

Lemma read_hex_from_append (a b : string) :
  forall acc, read_hex_from (a ++ b) acc = read_hex_from b (read_hex_from a acc).
Proof. induction a as [|x a IH]; simpl; intros acc; [reflexivity | apply IH]. Qed.

Lemma hex_char_spec (d : Z) :
  0 <= d < 16 -> is_lower_hex (hex_char d) = true /\ hex_digit_value (hex_char d) = d.
Proof.
  intros H.
  assert (C : d = 0 \/ d = 1 \/ d = 2 \/ d = 3 \/ d = 4 \/ d = 5 \/ d = 6 \/
              d = 7 \/ d = 8 \/ d = 9 \/ d = 10 \/ d = 11 \/ d = 12 \/
              d = 13 \/ d = 14 \/ d = 15) by lia.
  repeat (destruct C as [->|C]; [split; reflexivity|]). subst. split; reflexivity.
Qed.

Lemma fixed_hex_length (k : nat) : forall n, String.length (fixed_hex k n) = k.
Proof.
  induction k as [|k IH]; intros n; simpl; [reflexivity|].
  rewrite length_append, IH. simpl. lia.
Qed.

Lemma fixed_hex_chars (k : nat) : forall n, all_chars is_lower_hex (fixed_hex k n) = true.
Proof.
  induction k as [|k IH]; intros n; [reflexivity|].
  cbn [fixed_hex]. rewrite all_chars_append, IH. cbn [all_chars andb].
  rewrite andb_true_r. apply hex_char_spec, Z.mod_pos_bound. lia.
Qed.

Lemma fixed_hex_value (k : nat) :
  forall n, read_hex (fixed_hex k n) = n mod 16 ^ Z.of_nat k.
Proof.
  unfold read_hex.
  induction k as [|k IH]; intros n.
  - simpl. now rewrite Z.mod_1_r.
  - cbn [fixed_hex]. rewrite read_hex_from_append, IH. cbn [read_hex_from].
    destruct (hex_char_spec (n mod 16)) as [_ ->];
      [apply Z.mod_pos_bound; lia|].
    rewrite Nat2Z.inj_succ, Z.pow_succ_r by lia.
    rewrite (Z.rem_mul_r n 16 (16 ^ Z.of_nat k)); [lia | lia |].
    apply Z.pow_pos_nonneg; lia.
Qed.

Lemma fixed_hex_0 (k : nat) : fixed_hex k 0 = zeros k.
Proof.
  induction k as [|k IH]; [reflexivity|].
  cbn [fixed_hex]. change (0 / 16) with 0. rewrite IH.
  change (hex_char (0 mod 16)) with "0"%char.
  clear IH. induction k as [|k IH]; [reflexivity|].
  cbn [zeros String.append]. now rewrite IH.
Qed.

Lemma zfill_snoc (k : nat) (s : string) (c : ascii) :
  zfill (S k) (s ++ String c "") = zfill k s ++ String c "".
Proof.
  unfold zfill. rewrite length_append, append_assoc. simpl String.length.
  replace (S k - (String.length s + 1))%nat with (k - String.length s)%nat by lia.
  reflexivity.
Qed.

(** Zero padding to [k] digits gives the [k] low digits, when [k] digits
    are enough. *)
Lemma zfill_hex_from (k : nat) :
  forall n, 0 <= n < 16 ^ Z.of_nat (S k) ->
            zfill (S k) (hex_from (S k) n) = fixed_hex (S k) n.
Proof.
  induction k as [|k IH]; intros n Hn.
  - cbn [hex_from fixed_hex]. change (16 ^ Z.of_nat 1) with 16 in Hn.
    destruct (n <? 16) eqn:E; [reflexivity | lia].
  - cbn [hex_from]. rewrite zfill_snoc.
    change (fixed_hex (S (S k)) n)
      with (fixed_hex (S k) (n / 16) ++ String (hex_char (n mod 16)) "").
    f_equal.
    rewrite Nat2Z.inj_succ, Z.pow_succ_r in Hn by lia.
    destruct (n <? 16) eqn:E.
    + apply Z.ltb_lt in E. rewrite (Z.div_small n 16) by lia.
      rewrite fixed_hex_0. unfold zfill. simpl String.length.
      rewrite Nat.sub_0_r. clear. induction (S k) as [|j IH]; [reflexivity|].
      simpl. now rewrite IH.
    + apply IH. split; [apply Z.div_pos; lia|].
      apply Z.div_lt_upper_bound; lia.
Qed.

(** More fuel than digits changes nothing. *)
Lemma hex_from_fuel (f1 : nat) :
  forall f2 n, 0 <= n < 16 ^ Z.of_nat (S f1) -> 0 <= n < 16 ^ Z.of_nat (S f2) ->
               hex_from (S f1) n = hex_from (S f2) n.
Proof.
  induction f1 as [|f1 IH]; intros f2 n H1 H2.
  - change (16 ^ Z.of_nat 1) with 16 in H1.
    cbn [hex_from]. destruct (n <? 16) eqn:E; [reflexivity | lia].
  - change (hex_from (S (S f1)) n)
      with ((if n <? 16 then "" else hex_from (S f1) (n / 16))
              ++ String (hex_char (n mod 16)) "").
    change (hex_from (S f2) n)
      with ((if n <? 16 then "" else hex_from f2 (n / 16))
              ++ String (hex_char (n mod 16)) "").
    destruct (n <? 16) eqn:E; [reflexivity|]. f_equal.
    apply Z.ltb_ge in E.
    rewrite Nat2Z.inj_succ, Z.pow_succ_r in H1 by lia.
    destruct f2 as [|f2].
    + change (16 ^ Z.of_nat 1) with 16 in H2. lia.
    + rewrite Nat2Z.inj_succ, Z.pow_succ_r in H2 by lia.
      apply IH; (split; [apply Z.div_pos; lia | apply Z.div_lt_upper_bound; lia]).
Qed.

(** The fuel [hex] takes is enough. *)
Lemma hex_fuel (n : Z) : 0 <= n -> n < 16 ^ Z.of_nat (S (Z.to_nat (Z.log2 n))).
Proof.
  intros Hn. rewrite Nat2Z.inj_succ, Z2Nat.id by apply Z.log2_nonneg.
  destruct (Z.eq_dec n 0) as [->|N]; [reflexivity|].
  destruct (Z.log2_spec n) as [_ H]; [lia|].
  eapply Z.lt_le_trans; [exact H|].
  apply Z.pow_le_mono_l. lia.
Qed.

(** A word of at most 20 bits is printed as its five hexadecimal digits. *)
Lemma format_05x_fixed (w : Z) : 0 <= w < 2 ^ 20 -> format_05x w = fixed_hex 5 w.
Proof.
  intros H. unfold format_05x.
  destruct (w <? 0) eqn:E; [lia|]. unfold hex.
  rewrite (hex_from_fuel _ 4 w).
  - apply zfill_hex_from. exact H.
  - split; [lia | apply hex_fuel; lia].
  - exact H.
Qed.

Lemma format_05x_digits (w : Z) : 0 <= w < 2 ^ 20 -> five_hex_digits w.
Proof.
  intros H. unfold five_hex_digits. rewrite format_05x_fixed by exact H.
  rewrite fixed_hex_length, fixed_hex_chars, fixed_hex_value.
  repeat split. apply Z.mod_small. exact H.
Qed.

(** ** The rows of the image *)

Lemma starts_S (k : nat) :
  starts (S k) = O :: map (fun i => 8 + i)%nat (starts k).
Proof.
  unfold starts. cbn [seq map]. f_equal.
  rewrite <- seq_shift, !map_map. apply map_ext. intros j. lia.
Qed.

Lemma slice_8_shift {A : Type} (l : list A) (i : nat) :
  slice_8 l (8 + i) = slice_8 (skipn 8 l) i.
Proof. unfold slice_8. now rewrite skipn_skipn, Nat.add_comm. Qed.

Lemma slices_S {A : Type} (l : list A) (k : nat) :
  map (slice_8 l) (starts (S k)) =
  firstn 8 l :: map (slice_8 (skipn 8 l)) (starts k).
Proof.
  rewrite starts_S. cbn [map]. f_equal. rewrite map_map.
  apply map_ext. intros i. apply slice_8_shift.
Qed.

Lemma slices_concat {A : Type} (k : nat) :
  forall l : list A,
    (List.length l <= 8 * k)%nat -> List.concat (map (slice_8 l) (starts k)) = l.
Proof.
  induction k as [|k IH]; intros l H.
  - destruct l; [reflexivity | simpl in H; lia].
  - rewrite slices_S. cbn [List.concat]. rewrite IH.
    + apply firstn_skipn.
    + rewrite length_skipn. lia.
Qed.

Lemma slices_rows_of_8 {A : Type} (k : nat) :
  forall l : list A,
    (List.length l <= 8 * k < List.length l + 8)%nat ->
    rows_of_8 (map (slice_8 l) (starts k)).
Proof.
  induction k as [|k IH]; intros l H; [exact I|].
  rewrite slices_S.
  assert (Hrest : rows_of_8 (map (slice_8 (skipn 8 l)) (starts k)))
    by (apply IH; rewrite length_skipn; lia).
  destruct k as [|k].
  - cbn [starts seq map rows_of_8]. rewrite length_firstn. lia.
  - rewrite slices_S in *. cbn [rows_of_8]. split; [|exact Hrest].
    rewrite length_firstn. lia.
Qed.

Lemma range_by_8_starts (n : nat) :
  range_by_8 n = starts ((n + 7) / 8) /\
  (n <= 8 * ((n + 7) / 8) < n + 8)%nat.
Proof.
  split; [reflexivity|].
  pose proof (Nat.div_mod_eq (n + 7) 8) as E.
  pose proof (Nat.mod_upper_bound (n + 7) 8) as U. lia.
Qed.

Lemma slice_8_map {A B : Type} (f : A -> B) (l : list A) (i : nat) :
  slice_8 (map f l) i = map f (slice_8 l i).
Proof. unfold slice_8. now rewrite skipn_map, firstn_map. Qed.

(** The image is the header and the rows of the words, eight to a row. *)
Lemma image_rows (ws : list Z) :
  exists rows,
    List.concat rows = ws /\ rows_of_8 rows /\
    image ws = ("v2.0 raw" ++ nl) ++ String.concat "" (map row_text rows).
Proof.
  destruct (range_by_8_starts (List.length ws)) as [E B].
  exists (map (slice_8 ws) (starts ((List.length ws + 7) / 8))).
  split; [apply slices_concat; lia|].
  split; [apply slices_rows_of_8; exact B|].
  unfold image. rewrite length_map, E, map_map. do 2 f_equal.
  apply map_ext. intros i. unfold row_text. now rewrite slice_8_map.
Qed.

Lemma read_lines_blank (lines : list string) :
  Forall (fun line => blank line = true) lines ->
  forall acc, read_lines lines acc = ([], Ok acc).
Proof.
  induction 1 as [|line rest B _ IH]; intros acc; simpl; [reflexivity|].
  rewrite parse_line_blank by exact B. apply IH.
Qed.

(** What a run writes, if it writes. *)
Lemma assemble_file_written (input : list string) (out text : string) :
  written (assemble_file input out) = Some text ->
  exists ws, read_lines input [] = ([], Ok ws) /\ text = image ws.
Proof.
  unfold assemble_file.
  destruct (read_lines input []) as [printed [ws|e]] eqn:R; simpl;
    [|discriminate].
  intros [= <-]. exists ws. split; [|reflexivity].
  apply read_lines_Ok in R. now destruct R as (-> & _).
Qed.

(** ** Decimal literals *)






(** An exception of [int] is one of its two [ValueError]s. *)
Lemma int_Raise (s : string) (e : exn) :
  Py.int s = Raise e ->
  e = ValueError (InvalidLiteral s) \/ exists d, e = ValueError (DigitLimit d).
Proof.
  unfold Py.int. cbv zeta.
  destruct (Py.int_scan _ 0 0 true) as [[[n digits] rest]|];
    [|intros [= <-]; now left].
  destruct (Py.int_max_str_digits <? digits); [intros [= <-]; right; eauto|].
  destruct (String.eqb (Py.int_skip rest) ""); [discriminate|].
  intros [= <-]. now left.
Qed.

(** ** Immediates *)

(** The low five bits of an I-type word are those of the immediate. *)
Lemma encode_I_imm (op rd rs1 imm5 : Z) :
  field (encode_I op rd rs1 imm5) 0 5 = imm5 mod 2 ^ 5.
Proof.
  unfold field, encode_I. cbv zeta. rewrite Z.shiftr_0_r.
  rewrite <- (Z.mod_small (signed imm5 5) (2 ^ 5)) at 1
    by (apply signed_range; lia).
  rewrite <- !Z.land_ones by lia.
  rewrite !Z.land_lor_distr_l.
  assert (L : forall v k, 5 <= k -> Z.land (Z.shiftl v k) (Z.ones 5) = 0).
  { intros v k Hk. apply Z.bits_inj'. intros i Hi.
    rewrite Z.land_spec, Z.bits_0.
    destruct (Z.ltb_spec i 5).
    - rewrite Z.shiftl_spec_low by lia. reflexivity.
    - rewrite Z.ones_spec_high by lia. apply andb_false_r. }
  rewrite !L by lia. rewrite !Z.lor_0_l.
  rewrite !Z.land_ones by lia. rewrite Z.mod_mod by lia.
  rewrite signed_mod by lia. apply Z.mod_mod. lia.
Qed.

Lemma mem_I_type (ins : string) :
  Py.mem ins I_type = true ->
  ins = "ADDI" \/ ins = "SUBI" \/ ins = "NANDI" \/ ins = "NORI".
Proof.
  unfold Py.mem, I_type. cbn [existsb].
  repeat match goal with
         | |- context [String.eqb ins ?k] =>
             destruct (String.eqb_spec ins k); [intros _; tauto|]
         end.
  discriminate.
Qed.

(** An I-type line with two registers and any integer encodes. *)
Lemma parse_parts_I (m t1 t2 t3 : string) (rest : list string) (op rd rs1 imm5 : Z) :
  Py.mem (Py.upper m) I_type = true ->
  lookup (Py.upper m) OPCODES = Some op ->
  reg_number t1 = Ok rd -> reg_number t2 = Ok rs1 -> Py.int t3 = Ok imm5 ->
  parse_parts (m :: t1 :: t2 :: t3 :: rest) = Ok (encode_I op rd rs1 imm5).
Proof.
  intros HI L H1 H2 H3. unfold parse_parts.
  change (Py.index (m :: t1 :: t2 :: t3 :: rest) 0) with (Ok m).
  change (Py.index (m :: t1 :: t2 :: t3 :: rest) 1) with (Ok t1).
  change (Py.index (m :: t1 :: t2 :: t3 :: rest) 2) with (Ok t2).
  change (Py.index (m :: t1 :: t2 :: t3 :: rest) 3) with (Ok t3).
  unfold bind at 1. cbv beta iota zeta. rewrite L, HI.
  replace (Py.mem (Py.upper m) R_type) with false
    by (apply mem_I_type in HI; destruct HI as [-> | [-> | [-> | ->]]]; reflexivity).
  cbn [bind]. rewrite H1, H2, H3. reflexivity.
Qed.

Lemma words_five_hex_digits (lines : list string) (ws : list Z) :
  Forall2 word_of_line lines ws -> Forall five_hex_digits ws.
Proof.
  induction 1 as [|line w lines ws P _ IH]; constructor; [|exact IH].
  apply parse_line_word in P. destruct P as (m & ops & op & _ & _ & [R _]).
  apply format_05x_digits. lia.
Qed.

Lemma parse_line_unknown (line m : string) (ops : list string) :
  tokens line = m :: ops -> lookup (Py.upper m) OPCODES = None ->
  parse_line line = Raise (ValueError (UnknownInstruction (Py.upper m))).
Proof.
  intros T L. rewrite (parse_line_tokens _ _ _ T). unfold parse_parts.
  change (Py.index (m :: ops) 0) with (Ok m).
  unfold bind at 2. cbv beta iota zeta. now rewrite L.
Qed.

(** * The claims *)

(** ** C1 *)

(** C1, as stated, fails: [PUSH R0] encodes to 2^17, which is no 16-bit
    value, and bits 15-11 of it hold 0, not the opcode 16 of [PUSH]; the
    word of [SUB R0, R0, R0] fits 16 bits, but its bits 15-11 hold 4, not
    the opcode 1 of [SUB]. *)
Lemma opcode_bits_15_11_counterexample :
  parse_line "PUSH R0" = Ok (Some 131072) /\
  lookup "PUSH" OPCODES = Some 16 /\
  ~ 131072 < 2 ^ 16 /\ field 131072 11 5 <> 16 /\
  parse_line "SUB R0, R0, R0" = Ok (Some 8192) /\
  lookup "SUB" OPCODES = Some 1 /\ field 8192 11 5 <> 1.
Proof. repeat split; try reflexivity; vm_compute; congruence. Qed.

(** C1, amended: the word of every line that holds a valid instruction is
    an unsigned 18-bit value (below 2^18) whose bits 17-13 hold the opcode
    of the line's mnemonic; this covers every format, [PUSH] and [POP]
    included. *)
Theorem parse_line_opcode_field (line : string) (w : Z) :
  parse_line line = Ok (Some w) ->
  exists m ops op,
    tokens line = m :: ops /\ lookup (Py.upper m) OPCODES = Some op /\
    0 <= w < 2 ^ 18 /\ field w 13 5 = op.
Proof.
  intros H. apply parse_line_word in H.
  destruct H as (m & ops & op & T & L & R & F). now exists m, ops, op.
Qed.

Lemma parse_line_opcode_field_witness :
  parse_line "POP R3" = Ok (Some 140800) /\
  exists m ops op,
    tokens "POP R3" = m :: ops /\ lookup (Py.upper m) OPCODES = Some op /\
    0 <= 140800 < 2 ^ 18 /\ field 140800 13 5 = op.
Proof.
  split; [reflexivity|].
  apply (parse_line_opcode_field "POP R3" 140800). reflexivity.
Defined.

(** ** C2 *)

(** C2: for every integer [val] and every positive width [bits],
    [signed val bits] is the two's-complement pattern of [val] on [bits]
    bits: a negative [val] has [2^bits] added before it is masked, a
    non-negative one is masked as it is, and either way the result is
    [val mod 2^bits], a value in [0, 2^bits); [signed (-1) 5 = 0b11111],
    [signed 15 5 = 0b01111] and [signed 16 5 = 0b10000]. *)
Theorem signed_twos_complement (val bits : Z) :
  0 < bits ->
  (val < 0 -> signed val bits = Z.land (2 ^ bits + val) (2 ^ bits - 1)) /\
  (0 <= val -> signed val bits = Z.land val (2 ^ bits - 1)) /\
  signed val bits = val mod 2 ^ bits /\
  0 <= signed val bits < 2 ^ bits /\
  signed (-1) 5 = 31 /\ signed 15 5 = 15 /\ signed 16 5 = 16.
Proof.
  intros Hb. repeat split; try reflexivity.
  - intros Hv. unfold signed. rewrite Z.shiftl_1_l.
    destruct (Z.ltb_spec val 0); [reflexivity | lia].
  - intros Hv. unfold signed. rewrite Z.shiftl_1_l.
    destruct (Z.ltb_spec val 0); [lia | reflexivity].
  - apply signed_mod. lia.
  - apply signed_range. lia.
  - apply signed_range. lia.
Qed.

Lemma signed_twos_complement_witness :
  0 < 13 /\ signed (-5) 13 = (-5) mod 2 ^ 13.
Proof.
  split; [reflexivity|].
  exact (proj1 (proj2 (proj2 (signed_twos_complement (-5) 13 eq_refl)))).
Defined.

(** ** C3 *)

(** C3, as stated, fails: [ADD X1] has a mnemonic of the table and one
    operand token where the format reads three, and parsing it raises the
    invalid-register error of [X1], not the missing-operand [IndexError]. *)
Lemma missing_operand_counterexample :
  tokens "ADD X1" = ["ADD"; "X1"] /\
  lookup (Py.upper "ADD") OPCODES = Some 0 /\
  (List.length ["X1"] < List.length (operands (Py.upper "ADD")))%nat /\
  parse_line "ADD X1" = Raise (ValueError (InvalidRegister "X1")) /\
  parse_line "ADD X1" <> Raise IndexError.
Proof.
  split; [reflexivity|]. split; [reflexivity|].
  split; [vm_compute; lia|]. split; [reflexivity|].
  vm_compute. discriminate.
Qed.

(** C3, amended: a line whose mnemonic is in the opcode table and that
    carries fewer operand tokens than the format of the mnemonic reads
    never encodes; parsing raises the exception of the first operand
    token present that does not decode, and the missing-operand error
    ([IndexError], raised by indexing the token list) when every token
    present decodes.  [parse_line] raises that exception as it is, and so
    does the run over the file. *)
Theorem missing_operand_error (line m out : string) (ops : list string) (op : Z) :
  tokens line = m :: ops ->
  lookup (Py.upper m) OPCODES = Some op ->
  (List.length ops < List.length (operands (Py.upper m)))%nat ->
  let e := match first_error (operands (Py.upper m)) ops with
           | Some e => e
           | None => IndexError
           end in
  parse_line line = Raise e /\
  raised (assemble_file [line] out) = Some e /\
  written (assemble_file [line] out) = None /\
  (first_error (operands (Py.upper m)) ops = None ->
   parse_line line = Raise IndexError).
Proof.
  intros T L Hlen e.
  assert (P : parse_line line = Raise e).
  { rewrite (parse_line_tokens _ _ _ T).
    now rewrite (parse_parts_missing m ops op L Hlen). }
  split; [exact P|].
  unfold assemble_file. cbn [read_lines]. rewrite P. cbn.
  repeat split. intros E. subst e. now rewrite E.
Qed.

Lemma missing_operand_error_witness :
  parse_line "ADDI R1, R2" = Raise IndexError /\
  raised (assemble_file ["ADDI R1, R2"] "out.hex") = Some IndexError.
Proof.
  pose proof (missing_operand_error "ADDI R1, R2" "ADDI" "out.hex" ["R1"; "R2"] 6
                eq_refl eq_refl (le_n 3)) as H.
  split; [exact (proj1 H) | exact (proj1 (proj2 H))].
Defined.

(** ** C4 *)




(** ** C5 *)

(** C5: the word of [ADD R1, R2, R3] reads back, field by field, as the
    opcode 0 of [ADD] on top (bits 17-13 of the 18-bit word; bits 15-11
    read 0 as well) and as rd = 1, rs1 = 2 and rs2 = 3 in the 4-bit fields
    at bits 12-9, 8-5 and 4-1, above the padding bit. *)
Theorem add_fields_round_trip :
  exists w,
    parse_line "ADD R1, R2, R3" = Ok (Some w) /\
    lookup "ADD" OPCODES = Some 0 /\
    field w 13 5 = 0 /\ field w 11 5 = 0 /\
    field w 9 4 = 1 /\ field w 5 4 = 2 /\ field w 1 4 = 3 /\ field w 0 1 = 0.
Proof. exists 582. repeat split; reflexivity. Qed.

(** ** C6 *)

(** C6: [ADDI R0, R0, -1] and [ADDI R0, R0, 31] encode to the same word,
    whose immediate field is [0b11111]; for any opcode and registers,
    [encode_I] gives equal words on immediates congruent modulo 2^5, the
    immediate field being the immediate modulo 2^5; and an I-type line with
    two valid registers encodes whatever integer its immediate is. *)
Theorem encode_I_wraps (op rd rs1 a b : Z) :
  a mod 2 ^ 5 = b mod 2 ^ 5 ->
  encode_I op rd rs1 a = encode_I op rd rs1 b /\
  field (encode_I op rd rs1 a) 0 5 = a mod 2 ^ 5 /\
  (forall m t1 t2 t3 o r1 r2,
      Py.mem (Py.upper m) I_type = true ->
      lookup (Py.upper m) OPCODES = Some o ->
      reg_number t1 = Ok r1 -> reg_number t2 = Ok r2 -> Py.int t3 = Ok a ->
      parse_parts [m; t1; t2; t3] = Ok (encode_I o r1 r2 a)) /\
  parse_line "ADDI R0, R0, -1" = parse_line "ADDI R0, R0, 31" /\
  (exists w, parse_line "ADDI R0, R0, 31" = Ok (Some w) /\ field w 0 5 = 31) /\
  signed (-1) 5 = 31 /\ signed 31 5 = 31.
Proof.
  intros H. split.
  - unfold encode_I. cbv zeta. now rewrite !signed_mod, H by lia.
  - split; [apply encode_I_imm|].
    split; [intros; now apply parse_parts_I|].
    split; [reflexivity|]. split; [|split; reflexivity].
    exists 49183. split; reflexivity.
Qed.

Lemma encode_I_wraps_witness :
  (-1) mod 2 ^ 5 = 31 mod 2 ^ 5 /\ encode_I 6 0 0 (-1) = encode_I 6 0 0 31.
Proof.
  split; [reflexivity|].
  exact (proj1 (encode_I_wraps 6 0 0 (-1) 31 eq_refl)).
Defined.

(** ** C7 *)

(** C7: the run over a file is fail-fast.  If a line raises, the run ends
    with the exception of the first such line in source order, whatever the
    lines after it are, and writes no output; if no line raises, the run
    completes and writes the image of the words of all the instruction
    lines.  A mnemonic that is not in the table makes its line raise the
    unknown-instruction error. *)
Theorem assemble_file_fail_fast (input : list string) (out : string) :
  (forall pre line post e,
      input = (pre ++ line :: post)%list -> Forall encodes pre ->
      parse_line line = Raise e ->
      assemble_file input out = aborted line e /\
      forall post', assemble_file (pre ++ line :: post') out = aborted line e) /\
  (Exists fails input ->
   exists pre line post e,
     input = (pre ++ line :: post)%list /\ Forall encodes pre /\
     parse_line line = Raise e /\ assemble_file input out = aborted line e) /\
  (Forall encodes input ->
   exists ws,
     Forall2 word_of_line (instruction_lines input) ws /\
     assemble_file input out =
     {| stdout := ["Assembly complete. Output written to " ++ out];
        written := Some (image ws);
        raised := None |}) /\
  (forall line m ops,
      tokens line = m :: ops -> lookup (Py.upper m) OPCODES = None ->
      parse_line line = Raise (ValueError (UnknownInstruction (Py.upper m)))).
Proof.
  assert (A : forall pre line post e,
             Forall encodes pre -> parse_line line = Raise e ->
             assemble_file (pre ++ line :: post) out = aborted line e).
  { intros pre line post e Hpre P. unfold assemble_file.
    now rewrite (read_lines_Raise pre post line e Hpre P). }
  split; [|split; [|split]].
  - intros pre line post e -> Hpre P. split; [now apply A|].
    intros post'. now apply A.
  - intros Hex.
    destruct (read_lines input []) as [printed [ws|e]] eqn:R.
    + apply read_lines_Ok in R. destruct R as (_ & Hall & _).
      apply Exists_exists in Hex. destruct Hex as (line & Hin & e & P).
      rewrite Forall_forall in Hall. destruct (Hall line Hin) as [r Pr].
      congruence.
    + apply read_lines_Raise_inv in R.
      destruct R as (pre & line & post & -> & Hpre & P).
      exists pre, line, post, e. repeat split; try assumption. now apply A.
  - intros Hall. destruct (read_lines_encodes input Hall []) as [ws R].
    exists ws. pose proof (read_lines_Ok _ _ _ _ R) as (_ & _ & new & E & F).
    cbn [app] in E. subst new. split; [exact F|].
    unfold assemble_file. now rewrite R.
  - exact parse_line_unknown.
Qed.

Lemma assemble_file_fail_fast_witness :
  assemble_file ["ADD R1,R2,R3"; "// note"; "FOO R1"; "BAR"; "PUSH R1"] "o.hex" =
  aborted "FOO R1" (ValueError (UnknownInstruction "FOO")) /\
  assemble_file ["ADD R1,R2,R3"; "// note"; "FOO R1"] "o.hex" =
  aborted "FOO R1" (ValueError (UnknownInstruction "FOO")).
Proof.
  pose proof (proj1 (assemble_file_fail_fast
                       ["ADD R1,R2,R3"; "// note"; "FOO R1"; "BAR"; "PUSH R1"]
                       "o.hex")
                ["ADD R1,R2,R3"; "// note"] "FOO R1" ["BAR"; "PUSH R1"]
                (ValueError (UnknownInstruction "FOO")) eq_refl) as H.
  assert (Hpre : Forall encodes ["ADD R1,R2,R3"; "// note"]).
  { constructor; [now exists (Some 582)|].
    constructor; [now exists None | constructor]. }
  destruct (H Hpre eq_refl) as [H1 H2].
  split; [exact H1 | exact (H2 [])].
Defined.

(** ** C8 *)

Lemma read_lines_skip_blank (pre post : list string) (line : string) :
  blank line = true ->
  forall acc, read_lines (pre ++ line :: post) acc = read_lines (pre ++ post) acc.
Proof.
  intros B. induction pre as [|l pre IH]; intros acc; cbn [app read_lines].
  - now rewrite parse_line_blank by exact B.
  - destruct (parse_line l) as [[w|]|e]; [apply IH | apply IH | reflexivity].
Qed.

(** C8: when every line encodes, the words collected are, in source order,
    the words of the lines that are not blank, one for each; a line that
    is empty once its comment (from the first [//] on) is removed and it is
    trimmed gives no instruction and no error, and takes no place in the
    output: the run is the same without it. *)
Theorem machine_codes_in_source_order
  (input printed : list string) (ws : list Z) (out : string) :
  read_lines input [] = (printed, Ok ws) ->
  Forall2 word_of_line (instruction_lines input) ws /\
  List.length ws = List.length (instruction_lines input) /\
  written (assemble_file input out) = Some (image ws) /\
  (forall line, blank line = true -> parse_line line = Ok None) /\
  (forall pre line post,
      blank line = true ->
      read_lines (pre ++ line :: post) [] = read_lines (pre ++ post) []).
Proof.
  intros R. pose proof (read_lines_Ok _ _ _ _ R) as (_ & _ & new & E & F).
  cbn [app] in E. subst new.
  split; [exact F|]. split; [symmetry; eapply Forall2_length; exact F|].
  split; [unfold assemble_file; now rewrite R|].
  split; [exact parse_line_blank|].
  intros pre line post B. now apply read_lines_skip_blank.
Qed.

Lemma machine_codes_in_source_order_witness :
  Forall2 word_of_line ["ADD R1,R2,R3"; "JUMP -5 // back"] [582; 106491] /\
  written (assemble_file ["  // header"; "ADD R1,R2,R3"; ""; "JUMP -5 // back"]
             "o.hex") = Some (image [582; 106491]).
Proof.
  pose proof (machine_codes_in_source_order
                ["  // header"; "ADD R1,R2,R3"; ""; "JUMP -5 // back"] []
                [582; 106491] "o.hex" eq_refl) as (H1 & _ & H3 & _).
  split; [exact H1 | exact H3].
Defined.

(** ** C9 *)

(** C9: the text a successful run writes is the header line [v2.0 raw]
    followed by the rows of the words of the instruction lines, in order:
    every row is its words separated by one space and ended by a newline,
    and holds eight words, but the last row, which holds one to eight.
    Every word is printed as exactly five characters, all of them digits
    or lowercase [a]..[f], that read back in base 16 as the word.  An
    input of blank and comment-only lines gives the header line alone. *)
Theorem image_format (input : list string) (out text : string) :
  written (assemble_file input out) = Some text ->
  exists rows : list (list Z),
    Forall2 word_of_line (instruction_lines input) (List.concat rows) /\
    rows_of_8 rows /\
    text = ("v2.0 raw" ++ nl) ++ String.concat "" (map row_text rows) /\
    Forall five_hex_digits (List.concat rows) /\
    (Forall (fun line => blank line = true) input -> text = "v2.0 raw" ++ nl).
Proof.
  intros H. apply assemble_file_written in H. destruct H as (ws & R & ->).
  pose proof (read_lines_Ok _ _ _ _ R) as (_ & _ & new & E & F).
  cbn [app] in E. subst new.
  destruct (image_rows ws) as (rows & C & R8 & I).
  exists rows. rewrite C.
  split; [exact F|]. split; [exact R8|]. split; [exact I|].
  split; [eapply words_five_hex_digits; exact F|].
  intros B. rewrite (read_lines_blank input B []) in R.
  injection R as <-. reflexivity.
Qed.

Lemma image_format_witness :
  exists rows : list (list Z),
    Forall2 word_of_line
      (instruction_lines ["ADD R1,R2,R3"; "// only a comment"; "JUMP -5"])
      (List.concat rows) /\
    rows_of_8 rows /\
    image [582; 106491] =
    ("v2.0 raw" ++ nl) ++ String.concat "" (map row_text rows) /\
    Forall five_hex_digits (List.concat rows) /\
    (Forall (fun line => blank line = true)
       ["ADD R1,R2,R3"; "// only a comment"; "JUMP -5"] ->
     image [582; 106491] = "v2.0 raw" ++ nl).
Proof.
  exact (image_format ["ADD R1,R2,R3"; "// only a comment"; "JUMP -5"] "o.hex"
           (image [582; 106491]) eq_refl).
Defined.

(** ** C10 *)

(** C10: the mnemonic is uppercased before the lookup, so two lines whose
    tokens differ only in the letter case of the mnemonic parse alike, and
    [add R1,R2,R3] assembles like [ADD R1,R2,R3]; register tokens are not:
    a token that starts with a lowercase [r] is refused with the
    invalid-register error, whatever follows the [r], and so is each of
    [r0]..[r15] as the operand of a line, where [R0]..[R15] encode, under
    a lowercase mnemonic too. *)
Theorem mnemonic_case_only (l1 l2 m1 m2 : string) (ops : list string) :
  tokens l1 = m1 :: ops -> tokens l2 = m2 :: ops ->
  Py.upper m1 = Py.upper m2 ->
  parse_line l1 = parse_line l2 /\
  parse_line "add R1,R2,R3" = Ok (Some 582) /\
  parse_line "ADD R1,R2,R3" = Ok (Some 582) /\
  (forall s, reg_number (String "r" s) =
             Raise (ValueError (InvalidRegister (String "r" s)))) /\
  Forall2 (fun token n =>
             parse_line ("PUSH " ++ token) =
             Raise (ValueError (InvalidRegister token)) /\
             parse_line ("push " ++ Py.upper token) =
             Ok (Some (encode_STACK 16 n)))
    ["r0"; "r1"; "r2"; "r3"; "r4"; "r5"; "r6"; "r7"; "r8"; "r9"; "r10";
     "r11"; "r12"; "r13"; "r14"; "r15"]
    [0; 1; 2; 3; 4; 5; 6; 7; 8; 9; 10; 11; 12; 13; 14; 15].
Proof.
  intros T1 T2 U. split.
  - rewrite (parse_line_tokens _ _ _ T1), (parse_line_tokens _ _ _ T2).
    now rewrite (parse_parts_upper m1 m2 ops U).
  - split; [reflexivity|]. split; [reflexivity|]. split; [reflexivity|].
    repeat (constructor; [split; reflexivity|]). constructor.
Qed.

Lemma mnemonic_case_only_witness :
  parse_line "cMoV R1, R2, R3 // move" = parse_line "CMOV R1,R2,R3".
Proof.
  exact (proj1 (mnemonic_case_only "cMoV R1, R2, R3 // move" "CMOV R1,R2,R3"
                  "cMoV" "CMOV" ["R1"; "R2"; "R3"] eq_refl eq_refl eq_refl)).
Defined.

(** * Further properties of the code *)

(** ** Fields of a packed word *)

Lemma field_lor (a b lo width : Z) :
  field (Z.lor a b) lo width = Z.lor (field a lo width) (field b lo width).
Proof. unfold field. now rewrite Z.shiftr_lor, Z.land_lor_distr_l. Qed.

Lemma land_shiftl_ones (v k width : Z) :
  0 <= width <= k -> Z.land (Z.shiftl v k) (Z.ones width) = 0.
Proof.
  intros H. apply Z.bits_inj'. intros i Hi.
  rewrite Z.land_spec, Z.bits_0.
  destruct (Z.ltb_spec i width).
  - rewrite Z.shiftl_spec_low by lia. reflexivity.
  - rewrite Z.ones_spec_high by lia. apply andb_false_r.
Qed.

(** A value shifted past the field leaves it empty. *)
Lemma field_shiftl_above (v k lo width : Z) :
  0 <= lo -> 0 <= width -> lo + width <= k -> field (Z.shiftl v k) lo width = 0.
Proof.
  intros Hlo Hw Hk. unfold field. rewrite Z.shiftr_shiftl_l by lia.
  apply land_shiftl_ones. lia.
Qed.

Lemma field_small (v lo width : Z) :
  0 <= lo -> 0 <= v < 2 ^ lo -> field v lo width = 0.
Proof.
  intros Hlo Hv. unfold field.
  rewrite Z.shiftr_div_pow2, Z.div_small by lia. apply Z.land_0_l.
Qed.

(** A value that ends below the field leaves it empty. *)
Lemma field_shiftl_below (v k n lo width : Z) :
  0 <= k -> 0 <= n -> k + n <= lo -> 0 <= v < 2 ^ n ->
  field (Z.shiftl v k) lo width = 0.
Proof.
  intros Hk Hn Hlo Hv. apply field_small; [lia|].
  pose proof (shiftl_bound v k n Hk Hn Hv) as B.
  assert (2 ^ (n + k) <= 2 ^ lo) by (apply Z.pow_le_mono_r; lia). lia.
Qed.

(** A value shifted to the field and fitting it is read back. *)
Lemma field_shiftl_exact (v lo width : Z) :
  0 <= lo -> 0 <= width -> 0 <= v < 2 ^ width ->
  field (Z.shiftl v lo) lo width = v.
Proof.
  intros Hlo Hw Hv. unfold field.
  rewrite Z.shiftr_shiftl_l, Z.sub_diag, Z.shiftl_0_r, Z.land_ones by lia.
  apply Z.mod_small. exact Hv.
Qed.

Lemma field_low (v width : Z) : 0 <= width -> field v 0 width = v mod 2 ^ width.
Proof. intros H. unfold field. now rewrite Z.shiftr_0_r, Z.land_ones. Qed.

Lemma land_511_mod (v : Z) : Z.land v 511 = v mod 2 ^ 9.
Proof. change 511 with (Z.ones 9). apply Z.land_ones. lia. Qed.

Ltac fields :=
  rewrite ?field_lor;
  repeat first
    [ rewrite (field_shiftl_exact _ _ _) by (simpl; lia)
    | rewrite (field_shiftl_above _ _ _ _) by lia
    | rewrite (field_shiftl_below _ _ 4 _ _) by (simpl; lia)
    | rewrite (field_small _ _ _) by (simpl; lia) ];
  rewrite ?Z.lor_0_l, ?Z.lor_0_r.

(** X1: The R format: every field of the word reads back the value packed
    into it, and the padding bit is 0; [encode_CMOV] packs alike. *)
Theorem encode_R_fields (op rd rs1 rs2 : Z) :
  0 <= op < 32 -> 0 <= rd <= 15 -> 0 <= rs1 <= 15 -> 0 <= rs2 <= 15 ->
  field (encode_R op rd rs1 rs2) 13 5 = op /\
  field (encode_R op rd rs1 rs2) 9 4 = rd /\
  field (encode_R op rd rs1 rs2) 5 4 = rs1 /\
  field (encode_R op rd rs1 rs2) 1 4 = rs2 /\
  field (encode_R op rd rs1 rs2) 0 1 = 0 /\
  encode_CMOV op rd rs1 rs2 = encode_R op rd rs1 rs2.
Proof.
  intros Hop Hrd Hrs1 Hrs2. unfold encode_R.
  repeat split; try reflexivity; fields; reflexivity.
Qed.

Lemma encode_R_fields_witness :
  field (encode_R 5 15 0 9) 9 4 = 15 /\ field (encode_R 5 15 0 9) 1 4 = 9.
Proof.
  pose proof (encode_R_fields 5 15 0 9 ltac:(lia) ltac:(lia) ltac:(lia) ltac:(lia)) as H.
  destruct H as (_ & H1 & _ & H2 & _).
  split; [exact H1 | exact H2].
Defined.

Lemma encode_I_high_fields (op rd rs1 imm5 : Z) :
  0 <= op < 32 -> 0 <= rd <= 15 -> 0 <= rs1 <= 15 ->
  field (encode_I op rd rs1 imm5) 13 5 = op /\
  field (encode_I op rd rs1 imm5) 9 4 = rd /\
  field (encode_I op rd rs1 imm5) 5 4 = rs1.
Proof.
  intros Hop Hrd Hrs1. pose proof (signed_range imm5 5) as Hs.
  repeat split; unfold encode_I; cbv zeta; fields; reflexivity.
Qed.

(** X2: The I format: opcode and registers read back, and the immediate field
    holds the immediate modulo 2^5. *)
Theorem encode_I_fields (op rd rs1 imm5 : Z) :
  0 <= op < 32 -> 0 <= rd <= 15 -> 0 <= rs1 <= 15 ->
  field (encode_I op rd rs1 imm5) 13 5 = op /\
  field (encode_I op rd rs1 imm5) 9 4 = rd /\
  field (encode_I op rd rs1 imm5) 5 4 = rs1 /\
  field (encode_I op rd rs1 imm5) 0 5 = imm5 mod 2 ^ 5.
Proof.
  intros Hop Hrd Hrs1.
  destruct (encode_I_high_fields op rd rs1 imm5 Hop Hrd Hrs1) as (F1 & F2 & F3).
  repeat split; try assumption. apply encode_I_imm.
Qed.

Lemma encode_I_fields_witness :
  field (encode_I 6 3 12 (-2)) 5 4 = 12 /\
  field (encode_I 6 3 12 (-2)) 0 5 = 30.
Proof.
  pose proof (encode_I_fields 6 3 12 (-2) ltac:(lia) ltac:(lia) ltac:(lia)) as H.
  destruct H as (_ & _ & H1 & H2).
  split; [exact H1 | exact H2].
Defined.

(** X3: The M and U formats: opcode and register read back, and the low nine
    bits hold the address modulo 2^9; the plain mask gives a negative
    address the same pattern as [signed] would. *)
Theorem encode_M_fields (op reg addr : Z) :
  0 <= op < 32 -> 0 <= reg <= 15 ->
  field (encode_M op reg addr) 13 5 = op /\
  field (encode_M op reg addr) 9 4 = reg /\
  field (encode_M op reg addr) 0 9 = addr mod 2 ^ 9 /\
  encode_U op reg addr = encode_M op reg addr /\
  Z.land addr 511 = signed addr 9.
Proof.
  intros Hop Hreg. pose proof (land_511_range addr) as Ha.
  split; [|split; [|split; [|split]]].
  - unfold encode_M; cbv zeta; fields; reflexivity.
  - unfold encode_M; cbv zeta; fields; reflexivity.
  - unfold encode_M; cbv zeta. rewrite !field_lor.
    rewrite !field_low by lia.
    rewrite !Z.shiftl_mul_pow2 by lia.
    rewrite (Z.mod_small (Z.land addr 511)) by exact Ha.
    replace (op * 2 ^ 13) with (op * 2 ^ 4 * 2 ^ 9) by lia.
    rewrite !Z.mod_mul by lia. rewrite Z.lor_0_l. apply land_511_mod.
  - reflexivity.
  - rewrite signed_mod by lia. apply land_511_mod.
Qed.

Lemma encode_M_fields_witness :
  field (encode_M 10 7 (-1)) 9 4 = 7 /\ field (encode_M 10 7 (-1)) 0 9 = 511.
Proof.
  pose proof (encode_M_fields 10 7 (-1) ltac:(lia) ltac:(lia)) as H.
  destruct H as (_ & H1 & H2 & _).
  split; [exact H1 | exact H2].
Defined.

(** X4: The J format: the opcode reads back and the low thirteen bits hold
    the offset modulo 2^13, so offsets congruent modulo 2^13 give the same
    word. *)
Theorem encode_J_fields (op offset : Z) :
  0 <= op < 32 ->
  field (encode_J op offset) 13 5 = op /\
  field (encode_J op offset) 0 13 = offset mod 2 ^ 13 /\
  (forall offset', offset mod 2 ^ 13 = offset' mod 2 ^ 13 ->
                   encode_J op offset = encode_J op offset').
Proof.
  intros Hop. pose proof (signed_range offset 13) as Hs.
  split; [|split].
  - unfold encode_J; cbv zeta; fields; reflexivity.
  - unfold encode_J; cbv zeta. rewrite field_lor, !field_low by lia.
    rewrite Z.shiftl_mul_pow2, Z.mod_mul, Z.lor_0_l by lia.
    rewrite signed_mod by lia. apply Z.mod_mod. lia.
  - intros offset' E. unfold encode_J. cbv zeta.
    now rewrite !signed_mod, E by lia.
Qed.

Lemma encode_J_fields_witness :
  field (encode_J 12 (-5)) 13 5 = 12 /\ field (encode_J 12 (-5)) 0 13 = 8187.
Proof.
  pose proof (encode_J_fields 12 (-5) ltac:(lia)) as H.
  destruct H as (H1 & H2 & _).
  split; [exact H1 | exact H2].
Defined.

(** X5: The STACK format: opcode and register read back, and the low nine
    bits are all 0. *)
Theorem encode_STACK_fields (op reg : Z) :
  0 <= op < 32 -> 0 <= reg <= 15 ->
  field (encode_STACK op reg) 13 5 = op /\
  field (encode_STACK op reg) 9 4 = reg /\
  field (encode_STACK op reg) 0 9 = 0.
Proof.
  intros Hop Hreg. unfold encode_STACK.
  repeat split; fields; reflexivity.
Qed.

Lemma encode_STACK_fields_witness :
  field (encode_STACK 17 15) 9 4 = 15 /\ field (encode_STACK 17 15) 0 9 = 0.
Proof.
  pose proof (encode_STACK_fields 17 15 ltac:(lia) ltac:(lia)) as H.
  destruct H as (_ & H1 & H2).
  split; [exact H1 | exact H2].
Defined.

(** ** Two's complement *)

(** X6: [signed] is onto the [bits]-bit patterns and inverse to sign
    extension: a value in the signed range [-2^(bits-1), 2^(bits-1)) is
    read back from its pattern, the pattern of a pattern is itself, and
    adding a multiple of [2^bits] changes nothing. *)
Theorem signed_round_trip (val bits : Z) :
  0 < bits ->
  (- 2 ^ (bits - 1) <= val < 2 ^ (bits - 1) ->
   sign_extend (signed val bits) bits = val) /\
  signed (signed val bits) bits = signed val bits /\
  (forall k, signed (val + k * 2 ^ bits) bits = signed val bits) /\
  (0 <= val < 2 ^ bits -> signed val bits = val).
Proof.
  intros Hb.
  assert (P : 0 < 2 ^ (bits - 1)) by (apply Z.pow_pos_nonneg; lia).
  assert (E : 2 ^ bits = 2 * 2 ^ (bits - 1)).
  { rewrite <- Z.pow_succ_r by lia. f_equal. lia. }
  split; [|split; [|split]].
  - intros Hv. unfold sign_extend. rewrite signed_mod by lia.
    destruct (Z.ltb_spec val 0) as [N|N].
    + rewrite <- (Z.mod_add val 1 (2 ^ bits)) by lia.
      rewrite Z.mod_small by lia.
      destruct (Z.ltb_spec (val + 1 * 2 ^ bits) (2 ^ (bits - 1))); lia.
    + rewrite Z.mod_small by lia.
      destruct (Z.ltb_spec val (2 ^ (bits - 1))); lia.
  - rewrite !signed_mod by lia. apply Z.mod_mod. lia.
  - intros k. rewrite !signed_mod by lia. apply Z.mod_add. lia.
  - intros Hv. rewrite signed_mod by lia. now apply Z.mod_small.
Qed.

Lemma signed_round_trip_witness :
  sign_extend (signed (-16) 5) 5 = -16 /\ signed (-16) 5 = 16.
Proof.
  split; [|reflexivity].
  apply (proj1 (signed_round_trip (-16) 5 eq_refl)). simpl. lia.
Defined.

(** ** The opcode table *)

Lemma In_lookup (ins : string) (op : Z) :
  In (ins, op) OPCODES -> lookup ins OPCODES = Some op.
Proof.
  unfold OPCODES. simpl.
  intros H. repeat (destruct H as [H|H]; [injection H as <- <-; reflexivity|]).
  contradiction.
Qed.

(** No opcode is listed under two names. *)
Lemma OPCODES_injective (a b : string) (op : Z) :
  In (a, op) OPCODES -> lookup b OPCODES = Some op -> a = b.
Proof.
  intros Ha Hb. unfold OPCODES in Ha. simpl in Ha.
  unfold OPCODES, lookup in Hb.
  repeat (destruct Ha as [Ha|Ha];
          [injection Ha as <- <-;
           repeat match type of Hb with
                  | (if String.eqb b ?k then _ else _) = _ =>
                      destruct (String.eqb_spec b k) as [E|_];
                      [first [discriminate Hb | now rewrite E]|]
                  end;
           discriminate Hb|]).
  contradiction.
Qed.

(** X7: The table pairs mnemonics and opcodes one to one: a mnemonic is in it
    exactly when it is one of the 18 listed, no opcode is used twice, and
    every opcode is below 18. *)
Theorem OPCODES_one_to_one (a b : string) (op : Z) :
  lookup a OPCODES = Some op -> lookup b OPCODES = Some op ->
  a = b /\ 0 <= op < 18 /\ In a (map fst OPCODES) /\
  List.length OPCODES = 18%nat.
Proof.
  intros Ha Hb0. pose proof Hb0 as Hb. apply lookup_In in Ha, Hb.
  split; [|split; [|split; [|reflexivity]]].
  - exact (OPCODES_injective a b op Ha Hb0).
  - unfold OPCODES in Ha. simpl in Ha.
    repeat (destruct Ha as [Ha|Ha]; [injection Ha as _ <-; lia|]). contradiction.
  - apply (in_map fst) in Ha. exact Ha.
Qed.

Lemma OPCODES_one_to_one_witness : "POP" = "POP" /\ 0 <= 17 < 18.
Proof.
  pose proof (OPCODES_one_to_one "POP" "POP" 17 eq_refl eq_refl) as (H1 & H2 & _).
  split; [exact H1 | exact H2].
Defined.

(** X8: The word tells the mnemonic: two lines that encode to the same word
    have the same mnemonic, up to letter case. *)
Theorem same_word_same_mnemonic (l1 l2 : string) (w : Z) :
  parse_line l1 = Ok (Some w) -> parse_line l2 = Ok (Some w) ->
  exists m1 ops1 m2 ops2,
    tokens l1 = m1 :: ops1 /\ tokens l2 = m2 :: ops2 /\
    Py.upper m1 = Py.upper m2.
Proof.
  intros H1 H2. apply parse_line_word in H1, H2.
  destruct H1 as (m1 & ops1 & op1 & T1 & L1 & _ & F1).
  destruct H2 as (m2 & ops2 & op2 & T2 & L2 & _ & F2).
  exists m1, ops1, m2, ops2. split; [exact T1|]. split; [exact T2|].
  rewrite F1 in F2. subst op2. apply lookup_In in L1.
  exact (OPCODES_injective _ _ _ L1 L2).
Qed.

Lemma same_word_same_mnemonic_witness :
  exists m1 ops1 m2 ops2,
    tokens "push R2" = m1 :: ops1 /\ tokens " PUSH  R2 // x" = m2 :: ops2 /\
    Py.upper m1 = Py.upper m2.
Proof.
  exact (same_word_same_mnemonic "push R2" " PUSH  R2 // x" 132096
           eq_refl eq_refl).
Defined.

(** ** The dispatch of [parse_line] *)

Lemma bind_Raise {A B : Type} (m : result A) (k : A -> result B) (e : exn) :
  bind m k = Raise e -> m = Raise e \/ exists a, m = Ok a /\ k a = Raise e.
Proof.
  destruct m as [a|e']; simpl; intros H; [right; eauto | left].
  now injection H as ->.
Qed.

Lemma index_Raise {A : Type} (parts : list A) (i : nat) (e : exn) :
  Py.index parts i = Raise e -> e = IndexError.
Proof.
  unfold Py.index. destruct (nth_error parts i); [discriminate|].
  now intros [= <-].
Qed.

Lemma int_Raise_handled (s : string) (e : exn) :
  Py.int s = Raise e -> unhandled e = false.
Proof.
  intros H. apply int_Raise in H. destruct H as [->|[d ->]]; reflexivity.
Qed.

Lemma reg_number_Raise (r : string) (e : exn) :
  reg_number r = Raise e -> unhandled e = false.
Proof.
  unfold reg_number. destruct (Py.startswith_R r); simpl.
  - destruct (Py.int (Py.slice_from_1 r)) as [num|e'] eqn:E; simpl.
    + destruct (negb _); [now intros [= <-] | discriminate].
    + intros [= <-]. now apply int_Raise_handled in E.
  - now intros [= <-].
Qed.

Ltac raise_cases :=
  repeat match goal with
         | H : bind _ _ = Raise _ |- _ =>
             apply bind_Raise in H; destruct H as [H | (? & ? & H)]
         | H : Py.index _ _ = Raise _ |- _ => apply index_Raise in H; subst
         | H : reg_number _ = Raise _ |- _ => apply reg_number_Raise in H
         | H : Py.int _ = Raise _ |- _ => apply int_Raise_handled in H
         | H : Ok _ = Raise _ |- _ => discriminate H
         end.

(** Every mnemonic of the table is taken by one branch of the dispatch. *)
Lemma operands_of_table (ins : string) (op : Z) :
  lookup ins OPCODES = Some op -> operands ins <> [].
Proof.
  intros L. apply lookup_In in L. unfold OPCODES in L. simpl in L.
  repeat (destruct L as [L|L]; [injection L as <- _; discriminate|]).
  contradiction.
Qed.

Lemma parse_parts_handled (parts : list string) (e : exn) :
  parse_parts parts = Raise e -> unhandled e = false.
Proof.
  unfold parse_parts. destruct parts as [|m ops].
  - simpl. now intros [= <-].
  - change (Py.index (m :: ops) 0) with (Ok m).
    unfold bind at 1. cbv beta iota zeta.
    destruct (lookup (Py.upper m) OPCODES) as [op|] eqn:L;
      [|now intros [= <-]].
    pose proof (operands_of_table _ _ L) as Hops. unfold operands in Hops.
    repeat match goal with
           | |- (if ?c then _ else _) = _ -> _ => destruct c
           end;
      intros H; try (exfalso; apply Hops; reflexivity);
      raise_cases; try assumption; reflexivity.
Qed.

(** X9: The final "Unhandled instruction format" error of [parse_line] is
    never raised: whatever the line, an exception it raises is the
    [IndexError] of a missing token, the unknown-instruction error or an
    error of decoding an operand, and so is the exception of a run. *)
Theorem unhandled_format_unreachable (line : string) (e : exn) :
  parse_line line = Raise e ->
  unhandled e = false /\
  forall input out e',
    raised (assemble_file input out) = Some e' -> unhandled e' = false.
Proof.
  assert (P : forall l e', parse_line l = Raise e' -> unhandled e' = false).
  { intros l e' H. unfold parse_line in H. cbv zeta in H.
    destruct (String.eqb (code_text l) ""); [discriminate H|].
    apply bind_Raise in H. destruct H as [H | (w & _ & H)]; [|discriminate H].
    now apply parse_parts_handled in H. }
  intros H. split; [now apply (P line)|].
  intros input out e'. unfold assemble_file.
  destruct (read_lines input []) as [printed [ws|e'']] eqn:R; simpl;
    [discriminate|].
  apply read_lines_Raise_inv in R. destruct R as (_ & l & _ & _ & _ & Pl).
  intros [= <-]. now apply P in Pl.
Qed.

Lemma unhandled_format_unreachable_witness :
  unhandled (ValueError (InvalidRegister "X1")) = false.
Proof.
  exact (proj1 (unhandled_format_unreachable "ADD X1"
                  (ValueError (InvalidRegister "X1")) eq_refl)).
Defined.

Lemma split_from_spaces (s : string) :
  all_chars Py.isspace s = true -> Py.split_from s "" = [].
Proof.
  induction s as [|c r IH]; [reflexivity|].
  cbn [all_chars]. intros H. apply andb_prop in H. destruct H as [Hc Hr].
  cbn [Py.split_from]. rewrite Hc. cbn. now apply IH.
Qed.

Lemma replace_comma_spaces (s : string) :
  all_chars comma_or_space s = true ->
  all_chars Py.isspace (Py.replace_comma s) = true.
Proof.
  induction s as [|c r IH]; [reflexivity|].
  cbn [all_chars Py.replace_comma]. intros H.
  apply andb_prop in H. destruct H as [Hc Hr]. rewrite (IH Hr), andb_true_r.
  unfold comma_or_space in Hc. destruct (Ascii.eqb c ","); [reflexivity|].
  exact Hc.
Qed.

(** X10: A line that holds commas and nothing else (but white space and a
    comment) is not skipped as a blank line: it has no token, and reading
    the mnemonic raises [IndexError]. *)
Theorem only_commas_IndexError (line : string) :
  blank line = false ->
  all_chars comma_or_space (code_text line) = true ->
  tokens line = [] /\ parse_line line = Raise IndexError.
Proof.
  intros B H.
  assert (T : tokens line = []).
  { unfold tokens, Py.split. now apply split_from_spaces, replace_comma_spaces. }
  split; [exact T|]. rewrite parse_line_not_blank by exact B. now rewrite T.
Qed.

Lemma only_commas_IndexError_witness :
  tokens " , ,, // nothing" = [] /\
  parse_line " , ,, // nothing" = Raise IndexError.
Proof.
  exact (only_commas_IndexError " , ,, // nothing" eq_refl eq_refl).
Defined.

Lemma parse_parts_extra (m : string) (ops extra : list string) :
  (List.length (operands (Py.upper m)) <= List.length ops)%nat ->
  parse_parts (m :: ops ++ extra) = parse_parts (m :: ops).
Proof.
  unfold parse_parts.
  change (Py.index (m :: ops ++ extra) 0) with (Ok m).
  change (Py.index (m :: ops) 0) with (Ok m).
  cbn [bind].
  destruct (lookup (Py.upper m) OPCODES) as [op|]; [|reflexivity].
  unfold operands.
  repeat match goal with
         | |- context [if ?c then _ else _] => destruct c
         end;
    simpl List.length; intros Hlen;
    destruct ops as [|t1 [|t2 [|t3 ops]]]; simpl in Hlen; try lia;
    reflexivity.
Qed.

(** X11: Tokens after the operands the format reads are ignored: a line with
    more tokens parses like the line without them. *)
Theorem extra_tokens_ignored (l1 l2 m : string) (ops extra : list string) :
  tokens l1 = m :: ops -> tokens l2 = (m :: ops ++ extra)%list ->
  (List.length (operands (Py.upper m)) <= List.length ops)%nat ->
  parse_line l2 = parse_line l1.
Proof.
  intros T1 T2 Hlen.
  rewrite (parse_line_tokens _ _ _ T1), (parse_line_tokens _ _ _ T2).
  now rewrite parse_parts_extra.
Qed.

Lemma extra_tokens_ignored_witness :
  parse_line "PUSH R1, R2 junk 7" = parse_line "PUSH R1".
Proof.
  exact (extra_tokens_ignored "PUSH R1" "PUSH R1, R2 junk 7" "PUSH" ["R1"]
           ["R2"; "junk"; "7"] eq_refl eq_refl (le_n 1)).
Defined.

Lemma parse_parts_outcome (m : string) (ops : list string) (op : Z) :
  lookup (Py.upper m) OPCODES = Some op ->
  match first_error (operands (Py.upper m)) ops with
  | Some e => parse_parts (m :: ops) = Raise e
  | None =>
      if (List.length ops <? List.length (operands (Py.upper m)))%nat
      then parse_parts (m :: ops) = Raise IndexError
      else exists w, parse_parts (m :: ops) = Ok w
  end.
Proof.
  intros L. pose proof (operands_of_table _ _ L) as Hops.
  unfold parse_parts. change (Py.index (m :: ops) 0) with (Ok m).
  cbn [bind]. rewrite L.
  unfold operands in *.
  repeat match goal with
         | |- context [if Py.mem ?a ?b then _ else _] => destruct (Py.mem a b)
         | |- context [if String.eqb ?a ?b then _ else _] =>
             destruct (String.eqb a b)
         end;
    try (exfalso; apply Hops; reflexivity);
    destruct ops as [|t1 [|t2 [|t3 ops]]];
    unfold Py.index; simpl; unfold decode;
    repeat match goal with
           | |- context [reg_number ?t] => destruct (reg_number t); simpl
           | |- context [Py.int ?t] => destruct (Py.int t); simpl
           end;
    first [reflexivity | eexists; reflexivity].
Qed.

(** X12: A line with a mnemonic of the table encodes exactly when it has at
    least as many operand tokens as the format reads and each of these
    decodes; operands are decoded left to right, so the exception of a
    line is that of its first operand that does not decode, and
    [IndexError] only when all the operands present decode. *)
Theorem operands_decoded_in_order (line m : string) (ops : list string) (op : Z) :
  tokens line = m :: ops -> lookup (Py.upper m) OPCODES = Some op ->
  (forall e, first_error (operands (Py.upper m)) ops = Some e ->
             parse_line line = Raise e) /\
  (first_error (operands (Py.upper m)) ops = None ->
   (List.length (operands (Py.upper m)) <= List.length ops)%nat ->
   exists w, parse_line line = Ok (Some w)) /\
  (forall w, parse_line line = Ok (Some w) ->
             first_error (operands (Py.upper m)) ops = None /\
             (List.length (operands (Py.upper m)) <= List.length ops)%nat).
Proof.
  intros T L. rewrite (parse_line_tokens _ _ _ T).
  pose proof (parse_parts_outcome m ops op L) as O.
  destruct (first_error (operands (Py.upper m)) ops) as [e|].
  - rewrite O. repeat split; try discriminate. now intros e' [= <-].
  - destruct (Nat.ltb_spec (List.length ops) (List.length (operands (Py.upper m))))
      as [Hlt|Hge].
    + rewrite O. repeat split; try discriminate. intros _ H. lia.
    + destruct O as [w O]. rewrite O. split; [discriminate|].
      split; [intros _ _; now exists w|]. intros w' _. split; [reflexivity | exact Hge].
Qed.

Lemma operands_decoded_in_order_witness :
  parse_line "ADDI R1, R99, x" = Raise (ValueError (RegisterOutOfRange "R99")).
Proof.
  exact (proj1 (operands_decoded_in_order "ADDI R1, R99, x" "ADDI"
                  ["R1"; "R99"; "x"] 6 eq_refl eq_refl)
           (ValueError (RegisterOutOfRange "R99")) eq_refl).
Defined.

(** ** The word of a line, field by field *)

(** X13: An R-type line that encodes: the fields of its word read back the
    opcode of the mnemonic and the numbers of its three register tokens,
    in the order they are written. *)
Theorem R_line_round_trip (line m t1 t2 t3 : string) (rest : list string) (w : Z) :
  tokens line = m :: t1 :: t2 :: t3 :: rest ->
  Py.mem (Py.upper m) R_type = true ->
  parse_line line = Ok (Some w) ->
  lookup (Py.upper m) OPCODES = Some (field w 13 5) /\
  reg_number t1 = Ok (field w 9 4) /\
  reg_number t2 = Ok (field w 5 4) /\
  reg_number t3 = Ok (field w 1 4).
Proof.
  intros T HR H. rewrite (parse_line_tokens _ _ _ T) in H.
  apply bind_Ok in H. destruct H as (w' & H & [= <-]).
  unfold parse_parts in H.
  change (Py.index (m :: t1 :: t2 :: t3 :: rest) 0) with (Ok m) in H.
  change (Py.index (m :: t1 :: t2 :: t3 :: rest) 1) with (Ok t1) in H.
  change (Py.index (m :: t1 :: t2 :: t3 :: rest) 2) with (Ok t2) in H.
  change (Py.index (m :: t1 :: t2 :: t3 :: rest) 3) with (Ok t3) in H.
  cbn [bind] in H.
  destruct (lookup (Py.upper m) OPCODES) as [op|] eqn:L; [|discriminate H].
  rewrite HR in H. pose proof (OPCODES_range _ _ L) as Hop.
  destruct (reg_number t1) as [rd|] eqn:E1; [|discriminate H].
  destruct (reg_number t2) as [rs1|] eqn:E2; [|discriminate H].
  destruct (reg_number t3) as [rs2|] eqn:E3; [|discriminate H].
  cbn [bind] in H. injection H as <-.
  apply reg_number_range in E1, E2, E3. unfold encode_R.
  repeat split; f_equal; fields; reflexivity.
Qed.

Lemma R_line_round_trip_witness :
  reg_number "R15" = Ok (field 32262 9 4) /\
  reg_number "R0" = Ok (field 32262 5 4) /\
  reg_number "R3" = Ok (field 32262 1 4).
Proof.
  exact (proj2 (R_line_round_trip "nor R15, R0, R3" "nor" "R15" "R0" "R3" []
                  32262 eq_refl eq_refl eq_refl)).
Defined.

(** X14: An I-type line that encodes: the fields of its word read back the
    opcode, the numbers of its two register tokens and its immediate
    modulo 2^5. *)
Theorem I_line_round_trip
  (line m t1 t2 t3 : string) (rest : list string) (w imm : Z) :
  tokens line = m :: t1 :: t2 :: t3 :: rest ->
  Py.mem (Py.upper m) I_type = true ->
  parse_line line = Ok (Some w) -> Py.int t3 = Ok imm ->
  lookup (Py.upper m) OPCODES = Some (field w 13 5) /\
  reg_number t1 = Ok (field w 9 4) /\
  reg_number t2 = Ok (field w 5 4) /\
  field w 0 5 = imm mod 2 ^ 5.
Proof.
  intros T HI H E3.
  pose proof (parse_line_word _ _ H) as (m' & ops' & op & T' & L & _ & F).
  rewrite T in T'. injection T' as <- <-.
  rewrite (parse_line_tokens _ _ _ T) in H.
  apply bind_Ok in H. destruct H as (w' & H & [= <-]).
  destruct (reg_number t1) as [rd|e1] eqn:E1.
  - destruct (reg_number t2) as [rs1|e2] eqn:E2.
    + rewrite (parse_parts_I m t1 t2 t3 rest op rd rs1 imm HI L E1 E2 E3) in H.
      injection H as <-.
      pose proof (OPCODES_range _ _ L) as Hop.
      apply reg_number_range in E1, E2.
      destruct (encode_I_high_fields op rd rs1 imm Hop E1 E2) as (F1 & F2 & F3).
      rewrite F1, F2, F3, encode_I_imm. now rewrite L.
    + pose proof (parse_parts_outcome m (t1 :: t2 :: t3 :: rest) op L) as O.
      unfold operands in O. rewrite HI in O.
      replace (Py.mem (Py.upper m) R_type) with false in O
        by (apply mem_I_type in HI; destruct HI as [-> | [-> | [-> | ->]]];
            reflexivity).
      cbn [first_error decode] in O. rewrite E1, E2 in O. congruence.
  - pose proof (parse_parts_outcome m (t1 :: t2 :: t3 :: rest) op L) as O.
    unfold operands in O. rewrite HI in O.
    replace (Py.mem (Py.upper m) R_type) with false in O
      by (apply mem_I_type in HI; destruct HI as [-> | [-> | [-> | ->]]];
          reflexivity).
    cbn [first_error decode] in O. rewrite E1 in O. congruence.
Qed.

Lemma I_line_round_trip_witness :
  reg_number "R2" = Ok (field 58525 9 4) /\ field 58525 0 5 = (-3) mod 2 ^ 5.
Proof.
  pose proof (I_line_round_trip "SUBI R2 R4 -3" "SUBI" "R2" "R4" "-3" []
                58525 (-3) eq_refl eq_refl eq_refl eq_refl) as (_ & H1 & _ & H2).
  split; [exact H1 | exact H2].
Defined.

(** ** Comments, white space and commas *)

Lemma parse_line_code_text (l1 l2 : string) :
  code_text l1 = code_text l2 -> parse_line l1 = parse_line l2.
Proof. unfold parse_line. now intros ->. Qed.

Lemma split_slashes_0_comment (a b c : string) :
  Py.split_slashes_0 (a ++ "//" ++ b) = Py.split_slashes_0 (a ++ "//" ++ c).
Proof.
  induction a as [|x a IH]; [reflexivity|].
  cbn [String.append Py.split_slashes_0].
  destruct a as [|y a]; cbn [String.append] in *.
  - destruct (Ascii.eqb x "/"); reflexivity.
  - destruct (Ascii.eqb x "/" && Ascii.eqb y "/")%bool; [reflexivity|].
    now rewrite IH.
Qed.

(** X15: The text of a comment never matters: two lines that agree up to and
    including their first [//] parse alike. *)
Theorem comment_ignored (a b c : string) :
  parse_line (a ++ "//" ++ b) = parse_line (a ++ "//" ++ c) /\
  code_text (a ++ "//" ++ b) = code_text (a ++ "//").
Proof.
  split.
  - apply parse_line_code_text. unfold code_text.
    now rewrite (split_slashes_0_comment a b c).
  - unfold code_text. now rewrite (split_slashes_0_comment a b "").
Qed.

Lemma isspace_not_slash (c : ascii) :
  Py.isspace c = true -> Ascii.eqb c "/" = false.
Proof.
  intros H. destruct (Ascii.eqb_spec c "/") as [->|_]; [|reflexivity].
  discriminate H.
Qed.

Lemma split_slashes_0_cons (c : ascii) (line : string) :
  Ascii.eqb c "/" = false ->
  Py.split_slashes_0 (String c line) = String c (Py.split_slashes_0 line).
Proof.
  intros H. cbn [Py.split_slashes_0]. rewrite H.
  destruct line; reflexivity.
Qed.

Lemma split_slashes_0_snoc (c : ascii) (line : string) :
  Ascii.eqb c "/" = false ->
  Py.split_slashes_0 (line ++ String c "") =
    Py.split_slashes_0 line ++ String c "" \/
  Py.split_slashes_0 (line ++ String c "") = Py.split_slashes_0 line.
Proof.
  intros H. induction line as [|a r IH]; [left; reflexivity|].
  destruct r as [|b r].
  - left. cbn [String.append Py.split_slashes_0]. rewrite H, andb_false_r.
    reflexivity.
  - cbn [String.append Py.split_slashes_0] in *.
    destruct (Ascii.eqb a "/" && Ascii.eqb b "/")%bool; [right; reflexivity|].
    destruct IH as [IH|IH]; rewrite IH; [left | right]; reflexivity.
Qed.

Lemma rstrip_snoc (c : ascii) (s : string) :
  Py.isspace c = true -> Py.rstrip (s ++ String c "") = Py.rstrip s.
Proof.
  intros H. induction s as [|a r IH].
  - cbn. now rewrite H.
  - cbn [String.append Py.rstrip]. now rewrite IH.
Qed.

Lemma lstrip_snoc (c : ascii) (s : string) :
  Py.isspace c = true ->
  Py.lstrip (s ++ String c "") = Py.lstrip s ++ String c "" \/
  (Py.lstrip s = "" /\ Py.lstrip (s ++ String c "") = "").
Proof.
  intros H. induction s as [|a r IH].
  - right. cbn. now rewrite H.
  - cbn [String.append Py.lstrip]. destruct (Py.isspace a); [exact IH|].
    left. reflexivity.
Qed.

Lemma strip_snoc (c : ascii) (s : string) :
  Py.isspace c = true -> Py.strip (s ++ String c "") = Py.strip s.
Proof.
  intros H. unfold Py.strip.
  destruct (lstrip_snoc c s H) as [E|[E1 E2]].
  - rewrite E. now apply rstrip_snoc.
  - now rewrite E1, E2.
Qed.

(** X16: White space around a line never matters: a line parses the same with
    one more white-space character in front or at its end, so a line read
    with its newline parses like the line without it. *)
Theorem surrounding_space_ignored (c : ascii) (line : string) :
  Py.isspace c = true ->
  parse_line (String c line) = parse_line line /\
  parse_line (line ++ String c "") = parse_line line /\
  parse_line (line ++ nl) = parse_line line.
Proof.
  assert (A : forall c' l, Py.isspace c' = true ->
                           parse_line (l ++ String c' "") = parse_line l).
  { intros c' l H. apply parse_line_code_text. unfold code_text.
    destruct (split_slashes_0_snoc c' l (isspace_not_slash c' H)) as [E|E];
      rewrite E; [now apply strip_snoc | reflexivity]. }
  intros H. split; [|split].
  - apply parse_line_code_text. unfold code_text.
    rewrite split_slashes_0_cons by now apply isspace_not_slash.
    unfold Py.strip. cbn [Py.lstrip]. now rewrite H.
  - now apply A.
  - now apply (A (ascii_of_nat 10)).
Qed.

Lemma surrounding_space_ignored_witness :
  parse_line (String " " "ST R1, 300") = parse_line "ST R1, 300" /\
  parse_line ("ST R1, 300" ++ nl) = parse_line "ST R1, 300".
Proof.
  pose proof (surrounding_space_ignored " " "ST R1, 300" eq_refl) as (H1 & _ & H2).
  split; [exact H1 | exact H2].
Defined.

Lemma replace_comma_empty (s : string) :
  String.eqb (Py.replace_comma s) "" = String.eqb s "".
Proof. destruct s; reflexivity. Qed.

(** X17: A comma separates tokens exactly as a space does: two lines whose
    code texts are equal once every comma is replaced by a space parse
    alike. *)
Theorem commas_as_spaces (l1 l2 : string) :
  Py.replace_comma (code_text l1) = Py.replace_comma (code_text l2) ->
  parse_line l1 = parse_line l2.
Proof.
  intros H. unfold parse_line. cbv zeta.
  rewrite <- (replace_comma_empty (code_text l1)).
  rewrite <- (replace_comma_empty (code_text l2)).
  now rewrite H.
Qed.

Lemma commas_as_spaces_witness :
  parse_line "CMOV R1,R2,R3" = parse_line "CMOV,R1 R2 R3".
Proof.
  exact (commas_as_spaces "CMOV R1,R2,R3" "CMOV,R1 R2 R3" eq_refl).
Defined.

(** ** Runs *)

Lemma read_lines_acc (lines : list string) :
  forall acc,
    read_lines lines acc =
    match read_lines lines [] with
    | (printed, Ok ws) => (printed, Ok (acc ++ ws)%list)
    | (printed, Raise e) => (printed, Raise e)
    end.
Proof.
  induction lines as [|line rest IH]; intros acc; cbn [read_lines].
  - now rewrite app_nil_r.
  - destruct (parse_line line) as [[w|]|e]; [|apply IH|reflexivity].
    rewrite (IH (acc ++ [w])%list), (IH ([] ++ [w])%list).
    destruct (read_lines rest []) as [printed [ws|e]]; [|reflexivity].
    now rewrite <- app_assoc.
Qed.

Lemma read_lines_app (l1 l2 : list string) :
  forall acc,
    read_lines (l1 ++ l2) acc =
    match read_lines l1 acc with
    | (_, Ok ws) => read_lines l2 ws
    | (printed, Raise e) => (printed, Raise e)
    end.
Proof.
  induction l1 as [|line rest IH]; intros acc; cbn [app read_lines].
  - reflexivity.
  - destruct (parse_line line) as [[w|]|e]; [apply IH | apply IH | reflexivity].
Qed.

(** X18: Lines are encoded independently of each other: the words of two
    inputs put one after the other are the words of the first followed by
    the words of the second, and an input whose first part raises ends as
    the first part alone does. *)
Theorem words_of_concatenation (l1 l2 : list string) (ws1 : list Z) (p1 : list string) :
  read_lines l1 [] = (p1, Ok ws1) ->
  (forall p2 ws2, read_lines l2 [] = (p2, Ok ws2) ->
                  read_lines (l1 ++ l2) [] = ([], Ok (ws1 ++ ws2)%list)) /\
  (forall p2 e, read_lines l2 [] = (p2, Raise e) ->
                read_lines (l1 ++ l2) [] = (p2, Raise e)) /\
  (forall p e, read_lines l2 [] = (p, Raise e) ->
               forall l3, read_lines (l2 ++ l3) [] = (p, Raise e)).
Proof.
  intros R1. split; [|split].
  - intros p2 ws2 R2. rewrite read_lines_app, R1, read_lines_acc, R2.
    apply read_lines_Ok in R2. now destruct R2 as (-> & _).
  - intros p2 e R2. now rewrite read_lines_app, R1, read_lines_acc, R2.
  - intros p e R2 l3. now rewrite read_lines_app, R2.
Qed.

Lemma words_of_concatenation_witness :
  read_lines (["PUSH R1"; "// a"] ++ ["POP R1"]) [] = ([], Ok [131584; 139776]).
Proof.
  exact (proj1 (words_of_concatenation ["PUSH R1"; "// a"] ["POP R1"] [131584] []
                  eq_refl) [] [139776] eq_refl).
Defined.

Lemma assemble_file_at_opens (lines : list string) (out : string) :
  assemble_file_at (Ok lines) None out = assemble_file lines out.
Proof.
  unfold assemble_file_at, assemble_file.
  now destruct (read_lines lines []) as [printed [ws|e]].
Qed.



(** ** The size of the image *)

Lemma length_join (xs : list string) :
  Forall (fun s => String.length s = 5%nat) xs -> xs <> [] ->
  (String.length (String.concat " " xs) + 1 = 6 * List.length xs)%nat.
Proof.
  induction 1 as [|x xs Hx Hxs IH]; intros Hne; [contradiction|].
  destruct xs as [|y xs]; [cbn; lia|].
  change (String.concat " " (x :: y :: xs))
    with (x ++ " " ++ String.concat " " (y :: xs)).
  rewrite !length_append, Hx. change (String.length " ") with 1%nat.
  assert (E : y :: xs <> []) by discriminate. specialize (IH E).
  set (n := String.length (String.concat " " (y :: xs))) in *.
  cbn [List.length] in *. lia.
Qed.

Lemma length_join_words (row : list Z) :
  Forall five_hex_digits row -> row <> [] ->
  String.length (row_text row) = (6 * List.length row)%nat.
Proof.
  unfold row_text. intros H Hne. rewrite length_append.
  change (String.length nl) with 1%nat.
  rewrite length_join, length_map; [reflexivity | |].
  - apply Forall_map. eapply Forall_impl; [|exact H]. now intros w [Hw _].
  - destruct row; [contradiction | discriminate].
Qed.

Lemma rows_of_8_nonempty {A : Type} (rows : list (list A)) :
  rows_of_8 rows -> Forall (fun row => row <> []) rows.
Proof.
  induction rows as [|row rest IH]; intros H; constructor.
  - intros ->. cbn in H. destruct rest; cbn in H; [lia | destruct H; discriminate].
  - apply IH. destruct rest as [|r rest]; [exact I|]. cbn in H. apply H.
Qed.

Lemma length_rows_text (rows : list (list Z)) :
  Forall (fun row => row <> []) rows ->
  Forall five_hex_digits (List.concat rows) ->
  String.length (String.concat "" (map row_text rows)) =
  (6 * List.length (List.concat rows))%nat.
Proof.
  induction 1 as [|row rest Hne _ IH]; intros H; [reflexivity|].
  cbn [List.concat] in H. apply Forall_app in H. destruct H as [Hrow Hrest].
  specialize (IH Hrest).
  cbn [List.concat]. rewrite length_app.
  pose proof (length_join_words row Hrow Hne) as L.
  destruct rest as [|r rest].
  - cbn [map String.concat List.concat List.length]. rewrite L. lia.
  - change (String.concat "" (map row_text (row :: r :: rest)))
      with (row_text row ++ "" ++ String.concat "" (map row_text (r :: rest))).
    rewrite !length_append, L, IH. cbn [String.length]. lia.
Qed.

(** X20: The text a run writes has 9 characters for the header line and 6 for
    every instruction line of the input: five digits and the space or
    newline after them. *)
Theorem image_size (input : list string) (out text : string) :
  written (assemble_file input out) = Some text ->
  String.length text = (9 + 6 * List.length (instruction_lines input))%nat.
Proof.
  intros H. apply assemble_file_written in H. destruct H as (ws & R & ->).
  pose proof (read_lines_Ok _ _ _ _ R) as (_ & _ & new & E & F).
  cbn [app] in E. subst new.
  rewrite (Forall2_length F).
  destruct (image_rows ws) as (rows & C & R8 & I).
  rewrite I, length_append. change (String.length ("v2.0 raw" ++ nl)) with 9%nat.
  rewrite length_rows_text, C; [reflexivity | now apply rows_of_8_nonempty |].
  rewrite C. eapply words_five_hex_digits. exact F.
Qed.

Lemma image_size_witness :
  String.length (image [582; 106491]) =
  (9 + 6 * List.length (instruction_lines ["ADD R1,R2,R3"; ""; "JUMP -5"]))%nat.
Proof.
  exact (image_size ["ADD R1,R2,R3"; ""; "JUMP -5"] "o.hex"
           (image [582; 106491]) eq_refl).
Defined.
